(** * Minecraft MCP server: the TTL cache and the content extractor

    A shallow embedding of [cache.py] (class [CacheManager]) and of
    [scraper.py] (method [DocumentationScraper._extract_content]), with the
    properties the specification states about them. *)

From Stdlib Require Import ZArith String Ascii List Lia Bool.
From stdpp Require Import gmap strings list fin_maps.

Local Open Scope Z_scope.

(** ** cache.py *)

Module Cache.

(** *** [datetime] and [timedelta]

    A naive [datetime] has microsecond resolution and ranges over the years
    1 to 9999.  It is modelled by the number of microseconds since
    0001-01-01T00:00:00 (the start of the day with proleptic ordinal 1);
    [MAXORDINAL] is [date.max.toordinal()].  Arithmetic that leaves the range
    raises [OverflowError], as does a [timedelta] of more than 999999999
    days. *)

Variant exn := OverflowError.

Definition US_PER_SECOND : Z := 1000000.
Definition SECONDS_PER_DAY : Z := 86400.
Definition MAXORDINAL : Z := 3652059.
Definition MAX_DELTA_DAYS : Z := 999999999.

Definition datetime_in_range (t : Z) : bool :=
  (0 <=? t) && (t <? MAXORDINAL * SECONDS_PER_DAY * US_PER_SECOND).

(** [timedelta(seconds=s)] for an [int] [s]: the value in microseconds, after
    the normalisation [days, seconds = divmod(s, 86400)] and its range
    check on [days]. *)
Definition timedelta (seconds : Z) : exn + Z :=
  if Z.abs (seconds / SECONDS_PER_DAY) <=? MAX_DELTA_DAYS
  then inr (seconds * US_PER_SECOND)
  else inl OverflowError.

(** [dt + delta] on a [datetime]. *)
Definition datetime_add (dt delta : Z) : exn + Z :=
  let r := dt + delta in
  if datetime_in_range r then inr r else inl OverflowError.

(** The builtin [sum] over integers. *)
Definition py_sum (l : list Z) : Z := fold_left Z.add l 0.

Section WithData.

(** The cached payload ([Any] in the source). *)
Variable Data : Type.

Record CacheEntry := mkCacheEntry { data : Data; expires_at : Z }.

Record CacheManager := mkCacheManager {
  default_ttl : Z;
  _cache : gmap string CacheEntry
}.

Definition with_cache (self : CacheManager) (c : gmap string CacheEntry)
  : CacheManager :=
  {| default_ttl := default_ttl self; _cache := c |}.

(** [CacheManager.__init__] *)
Definition init (ttl : Z) : CacheManager :=
  {| default_ttl := ttl; _cache := ∅ |}.

(** [now >= entry.expires_at] *)
Definition is_expired (now : Z) (entry : CacheEntry) : bool :=
  now >=? expires_at entry.

(** [CacheManager.get]; [now] is the reading of [datetime.now()] on line 59.
    The result is the returned value ([None] for Python's [None]) and the
    manager after the call. *)
Definition get (self : CacheManager) (key : string) (now : Z)
  : option Data * CacheManager :=
  match _cache self !! key with
  | None => (None, self)
  | Some entry =>
      if is_expired now entry
      then (None, with_cache self (delete key (_cache self)))
      else (Some (data entry), self)
  end.

(** The list comprehension of [_cleanup_expired]. *)
Definition expired_keys (now : Z) (c : gmap string CacheEntry) : list string :=
  (filter (λ kv, is_expired now kv.2 = true) (map_to_list c)).*1.

(** [CacheManager._cleanup_expired]; [now] is the reading on line 112. *)
Definition _cleanup_expired (self : CacheManager) (now : Z) : CacheManager :=
  with_cache self
    (fold_left (λ c key, delete key c) (expired_keys now (_cache self))
       (_cache self)).

(** [CacheManager.set]; [now] is the clock reading on line 79 and
    [now_cleanup] the one [_cleanup_expired] takes when it is called. *)
Definition set (self : CacheManager) (key : string) (d : Data)
    (ttl : option Z) (now now_cleanup : Z) : exn + CacheManager :=
  let ttl_seconds := match ttl with Some t => t | None => default_ttl self end in
  match timedelta ttl_seconds with
  | inl e => inl e
  | inr delta =>
      match datetime_add now delta with
      | inl e => inl e
      | inr expires =>
          let self1 :=
            with_cache self
              (<[key := mkCacheEntry d expires]> (_cache self)) in
          if Z.of_nat (size (_cache self1)) mod 10 =? 0
          then inr (_cleanup_expired self1 now_cleanup)
          else inr self1
      end
  end.

(** The time-to-live a call to [set] uses, and the expiry it computes. *)
Definition ttl_seconds (self : CacheManager) (ttl : option Z) : Z :=
  match ttl with Some t => t | None => default_ttl self end.

Definition expiry (self : CacheManager) (ttl : option Z) (now : Z) : Z :=
  now + ttl_seconds self ttl * US_PER_SECOND.

(** The manager [set] leaves behind when it does not raise. *)
Definition after_set (self : CacheManager) (key : string) (d : Data)
    (ttl : option Z) (now now_cleanup : Z) : CacheManager :=
  let self1 :=
    with_cache self
      (<[key := mkCacheEntry d (expiry self ttl now)]> (_cache self)) in
  if Z.of_nat (size (_cache self1)) mod 10 =? 0
  then _cleanup_expired self1 now_cleanup
  else self1.

(** [CacheManager.invalidate] *)
Definition invalidate (self : CacheManager) (key : string) : CacheManager :=
  match _cache self !! key with
  | Some _ => with_cache self (delete key (_cache self))
  | None => self
  end.

(** [CacheManager.clear]; the count is what the log line reports. *)
Definition clear (self : CacheManager) : nat * CacheManager :=
  (size (_cache self), with_cache self ∅).

Record Stats := mkStats {
  total_entries : Z;
  active_entries : Z;
  expired_entries : Z;
  stats_default_ttl : Z
}.

(** [CacheManager.get_stats]; the second component is the manager after the
    call. *)
Definition get_stats (self : CacheManager) (now : Z) : Stats * CacheManager :=
  let total := Z.of_nat (size (_cache self)) in
  let expired :=
    py_sum (map (λ _, 1)
              (filter (λ entry, is_expired now entry = true)
                 ((map_to_list (_cache self)).*2))) in
  let active := total - expired in
  ({| total_entries := total; active_entries := active;
      expired_entries := expired; stats_default_ttl := default_ttl self |},
   self).

End WithData.

Arguments mkCacheEntry {Data}.
Arguments data {Data}.
Arguments expires_at {Data}.
Arguments mkCacheManager {Data}.
Arguments default_ttl {Data}.
Arguments _cache {Data}.
Arguments with_cache {Data}.
Arguments is_expired {Data}.
Arguments get {Data}.
Arguments expired_keys {Data}.
Arguments _cleanup_expired {Data}.
Arguments set {Data}.
Arguments ttl_seconds {Data}.
Arguments expiry {Data}.
Arguments after_set {Data}.
Arguments invalidate {Data}.
Arguments clear {Data}.
Arguments get_stats {Data}.

(** A run of [set] calls on one manager, stopping at the first that raises.
    Each call comes with its two clock readings. *)
Record SetCall (Data : Type) := mkSetCall {
  call_key : string;
  call_data : Data;
  call_ttl : option Z;
  call_now : Z;
  call_now_cleanup : Z
}.
Arguments mkSetCall {Data}.
Arguments call_key {Data}.
Arguments call_data {Data}.
Arguments call_ttl {Data}.
Arguments call_now {Data}.
Arguments call_now_cleanup {Data}.

Definition set_call {Data} (self : CacheManager Data) (c : SetCall Data)
  : exn + CacheManager Data :=
  set self (call_key c) (call_data c) (call_ttl c) (call_now c)
    (call_now_cleanup c).

Fixpoint set_all {Data} (self : CacheManager Data) (calls : list (SetCall Data))
  : exn + CacheManager Data :=
  match calls with
  | [] => inr self
  | c :: rest =>
      match set_call self c with
      | inl e => inl e
      | inr self' => set_all self' rest
      end
  end.

(** Concrete data for the examples: 2026-11-03T00:00:00 as a clock reading,
    and a run of ten calls that writes one live entry and then an entry that
    is already expired, nine times under the same key. *)
Definition T0 : Z := 63929260800000000.

Definition live_call : SetCall string :=
  mkSetCall "wiki:creeper" "article" (Some 3600) T0 T0.

Definition stale_call : SetCall string :=
  mkSetCall "mojang:status" "status" (Some (-1)) T0 T0.

Definition ten_calls_two_keys : list (SetCall string) :=
  live_call :: repeat stale_call 9.

Definition nine_stale_calls : list (SetCall string) :=
  map (fun key => mkSetCall key "page" (Some (-1)) T0 T0)
    ["k0"; "k1"; "k2"; "k3"; "k4"; "k5"; "k6"; "k7"; "k8"].

Definition tenth_call : SetCall string :=
  mkSetCall "k9" "page" (Some 300) T0 T0.

(** A store with one live and one expired entry at [T0 + 1]. *)
Definition two_entries : CacheManager string :=
  mkCacheManager 3600
    (<["a" := mkCacheEntry "live" (T0 + 2)]>
       (<["b" := mkCacheEntry "stale" T0]> ∅)).

End Cache.

(** ** Python strings

    A [string] stands for a Python [str] whose characters are code points
    below 256, one [ascii] per code point. *)

Module Py.

Local Open Scope string_scope.

Definition chr (n : nat) : ascii := ascii_of_nat n.
Definition NL : ascii := chr 10.
Definition DQUOTE : ascii := chr 34.
Definition SQUOTE : ascii := chr 39.
Definition BACKSLASH : ascii := chr 92.

(** [len(s)] *)
Definition len (s : string) : Z := Z.of_nat (String.length s).

(** [str.isspace] on one character. *)
Definition isspace (c : ascii) : bool :=
  let n := nat_of_ascii c in
  ((9 <=? n) && (n <=? 13) || (28 <=? n) && (n <=? 32)
   || (n =? 133) || (n =? 160))%nat.

Fixpoint lstrip (s : string) : string :=
  match s with
  | EmptyString => EmptyString
  | String c rest => if isspace c then lstrip rest else s
  end.

Fixpoint rstrip (s : string) : string :=
  match s with
  | EmptyString => EmptyString
  | String c rest =>
      match rstrip rest with
      | EmptyString => if isspace c then EmptyString else String c EmptyString
      | rest' => String c rest'
      end
  end.

(** [s.strip()] *)
Definition strip (s : string) : string := rstrip (lstrip s).

(** [s.split(sep)] for a one-character separator. *)
Fixpoint split (sep : ascii) (s : string) : list string :=
  match s with
  | EmptyString => [EmptyString]
  | String c rest =>
      if Ascii.eqb c sep then EmptyString :: split sep rest
      else match split sep rest with
           | [] => [String c EmptyString]
           | field :: fields => String c field :: fields
           end
  end.

(** [sep.join(items)] *)
Fixpoint join (sep : string) (items : list string) : string :=
  match items with
  | [] => EmptyString
  | [x] => x
  | x :: rest => x ++ sep ++ join sep rest
  end.

(** The truth value of a [str]. *)
Definition truthy (s : string) : bool :=
  match s with EmptyString => false | _ => true end.

(** [s[:n]], with Python's reading of a negative bound. *)
Definition slice_to (s : string) (n : Z) : string :=
  let stop := (if n <? 0 then Z.max 0 (len s + n) else n)%Z in
  substring 0 (Z.to_nat stop) s.

Fixpoint contains (c : ascii) (s : string) : bool :=
  match s with
  | EmptyString => false
  | String c' rest => Ascii.eqb c c' || contains c rest
  end.

Definition hexdigit (n : nat) : ascii :=
  if (n <? 10)%nat then chr (48 + n) else chr (87 + n).

(** [\xhh] *)
Definition hex_escape (n : nat) : string :=
  String BACKSLASH
    (String "x" (String (hexdigit (n / 16)) (String (hexdigit (n mod 16)) ""))).

(** [str.isprintable] on a code point from 128 to 255. *)
Definition isprintable_high (n : nat) : bool :=
  ((161 <=? n) && negb (n =? 173))%nat.

Definition repr_char (quote c : ascii) : string :=
  let n := nat_of_ascii c in
  if Ascii.eqb c quote || Ascii.eqb c BACKSLASH then String BACKSLASH (String c "")
  else if (n =? 9)%nat then String BACKSLASH "t"
  else if (n =? 10)%nat then String BACKSLASH "n"
  else if (n =? 13)%nat then String BACKSLASH "r"
  else if ((n <? 32) || (n =? 127))%nat then hex_escape n
  else if (n <? 127)%nat then String c ""
  else if isprintable_high n then String c ""
  else hex_escape n.

Fixpoint repr_chars (quote : ascii) (s : string) : string :=
  match s with
  | EmptyString => EmptyString
  | String c rest => repr_char quote c ++ repr_chars quote rest
  end.

(** [repr(s)] of a [str]. *)
Definition repr_str (s : string) : string :=
  let quote :=
    if contains SQUOTE s && negb (contains DQUOTE s) then DQUOTE else SQUOTE in
  String quote (repr_chars quote s ++ String quote "").

(** [repr(l)] of a list of [str], which is also its [str]. *)
Definition repr_list (l : list string) : string :=
  "[" ++ join ", " (map repr_str l) ++ "]".

End Py.

(** ** exceptions.py and scraper.py *)

Module Scraper.

Local Open Scope string_scope.

(** The exception classes of [exceptions.py]; [LibraryError] stands for any
    other subclass of [Exception], named by its class. *)
Inductive exn_class :=
  | MCPServerError
  | NetworkError
  | ParsingError
  | APIError
  | LibraryError (name : string).

(** An exception object: its class and its [str()]. *)
Record exn := Exn { exn_kind : exn_class; exn_str : string }.

Definition result (A : Type) : Type := exn + A.

Definition bind {A B} (m : result A) (k : A -> result B) : result B :=
  match m with
  | inl e => inl e
  | inr a => k a
  end.

Notation "'do' x <- m ; k" := (bind m (fun x => k))
  (at level 10, x name, m at level 100, k at level 200).

(** The part of BeautifulSoup that [_extract_content] calls.  The parsed
    document is a mutable tree: [Soup] is a state of that tree and [Tag] a
    reference to one of its elements, so that [decompose] yields the next
    state and [get_text] reads an element in a given state.  Every call may
    raise. *)
Class Bs4 := {
  Soup : Type;
  Tag : Type;
  (** [BeautifulSoup(html, "lxml")] *)
  BeautifulSoup : string -> result Soup;
  (** [soup.select_one(selector)]: the first matching element or [None] *)
  select_one : Soup -> string -> result (option Tag);
  (** [element.select(selector)] *)
  select : Soup -> Tag -> string -> result (list Tag);
  (** [element.decompose()] *)
  decompose : Soup -> Tag -> result Soup;
  (** [element.get_text(separator="\n", strip=True)] *)
  get_text : Soup -> Tag -> result string
}.

Record DocumentationScraper := mkScraper {
  timeout : Z;
  max_content_length : Z
}.

Definition TRUNCATION_MARKER : string :=
  String Py.NL (String Py.NL "[Content truncated...]").

Definition UNWANTED : string := "script, style, nav, footer, aside".

Section Extract.

Context `{lib : Bs4}.

(** The [for] loop over [selectors.items()] (a [dict] in insertion order, here
    the list of its items).  A [Tag] is always true ([Tag.__bool__] returns
    [True]), so [if content_element] holds exactly when [select_one] did not
    return [None].  The first component is a trace for the statements below:
    the rules whose selector was handed to [select_one], in order; the second
    is the value of [content_element] after the loop. *)
Fixpoint select_loop (soup : Soup) (selectors : list (string * string))
  : list (string * string) * result (option Tag) :=
  match selectors with
  | [] => ([], inr None)
  | (name, selector) :: rest =>
      match select_one soup selector with
      | inl e => ([(name, selector)], inl e)
      | inr (Some element) => ([(name, selector)], inr (Some element))
      | inr None =>
          let '(consulted, r) := select_loop soup rest in
          ((name, selector) :: consulted, r)
      end
  end.

(** A rule whose selector finds nothing in the document. *)
Definition no_match (soup : Soup) (rule : string * string) : Prop :=
  select_one soup (snd rule) = inr None.

(** [for unwanted in ...: unwanted.decompose()] *)
Fixpoint decompose_all (soup : Soup) (unwanted : list Tag) : result Soup :=
  match unwanted with
  | [] => inr soup
  | u :: rest => do soup' <- decompose soup u; decompose_all soup' rest
  end.

(** Lines 121 to 123: the whitespace clean-up. *)
Definition clean_lines (text : string) : string :=
  let lines :=
    map Py.strip
      (List.filter (fun line => Py.truthy (Py.strip line)) (Py.split Py.NL text)) in
  Py.join (String Py.NL "") lines.

(** Lines 125 to 130: the truncation. *)
Definition truncate (self : DocumentationScraper) (text : string) : string :=
  if (Py.len text >? max_content_length self)%Z
  then Py.slice_to text (max_content_length self) ++ TRUNCATION_MARKER
  else text.

(** The body of the [try] block. *)
Definition extract_body (self : DocumentationScraper) (html : string)
    (selectors : list (string * string)) : result string :=
  do soup <- BeautifulSoup html;
  do content_element <- snd (select_loop soup selectors);
  match content_element with
  | None =>
      inl (Exn ParsingError
             ("Could not find content using selectors: "
              ++ Py.repr_list (map fst selectors)))
  | Some element =>
      do unwanted <- select soup element UNWANTED;
      do soup' <- decompose_all soup unwanted;
      do text <- get_text soup' element;
      inr (truncate self (clean_lines text))
  end.

(** [DocumentationScraper._extract_content]: the body under its
    [except Exception] handler. *)
Definition _extract_content (self : DocumentationScraper) (html : string)
    (selectors : list (string * string)) : result string :=
  match extract_body self html selectors with
  | inr text => inr text
  | inl e =>
      inl (Exn ParsingError ("Failed to parse HTML content: " ++ exn_str e))
  end.

End Extract.

(** A small stand-in for the library, for the examples: the document is its
    own text, [main] selects the whole document, [!] is a selector the
    library rejects, and nothing else matches. *)
Definition stub_select_one (soup selector : string) : result (option string) :=
  if String.eqb selector "main" then inr (Some soup)
  else if String.eqb selector "!" then
    inl (Exn (LibraryError "SelectorSyntaxError") "Invalid character")
  else inr None.

Definition stub_parse (html : string) : result string :=
  if String.eqb html "!" then inl (Exn (LibraryError "ParserError") "no parse")
  else inr html.

Definition stub_bs4 : Bs4 := {|
  Soup := string;
  Tag := string;
  BeautifulSoup := stub_parse;
  select_one := stub_select_one;
  select := fun _ _ _ => inr [];
  decompose := fun soup _ => inr soup;
  get_text := fun _ element => inr element
|}.

End Scraper.

(** ** More of Python's [str] and [int] *)

From Stdlib Require Import DecimalString.

Module PyMore.

Local Open Scope string_scope.

(** [s.replace(old, new)] for a one-character [old]. *)
Fixpoint replace (old : ascii) (new : string) (s : string) : string :=
  match s with
  | EmptyString => EmptyString
  | String c rest =>
      if Ascii.eqb c old then new ++ replace old new rest
      else String c (replace old new rest)
  end.

(** [str.isalnum] on one character (a code point below 256). *)
Definition isalnum_char (c : ascii) : bool :=
  let n := nat_of_ascii c in
  ((48 <=? n) && (n <=? 57) || (65 <=? n) && (n <=? 90)
   || (97 <=? n) && (n <=? 122)
   || (n =? 170) || (n =? 178) || (n =? 179) || (n =? 181) || (n =? 185)
   || (n =? 186) || (188 <=? n) && (n <=? 190)
   || (192 <=? n) && (n <=? 214) || (216 <=? n) && (n <=? 246)
   || (248 <=? n))%nat.

Fixpoint all_chars (p : ascii -> bool) (s : string) : bool :=
  match s with
  | EmptyString => true
  | String c rest => p c && all_chars p rest
  end.

(** [s.isalnum()]: false on the empty string. *)
Definition isalnum (s : string) : bool := Py.truthy s && all_chars isalnum_char s.

(** [str.lower] on one character (a code point below 256). *)
Definition lower_char (c : ascii) : ascii :=
  let n := nat_of_ascii c in
  if ((65 <=? n) && (n <=? 90) || (192 <=? n) && (n <=? 214)
      || (216 <=? n) && (n <=? 222))%nat
  then ascii_of_nat (n + 32) else c.

(** [s.lower()] *)
Fixpoint lower (s : string) : string :=
  match s with
  | EmptyString => EmptyString
  | String c rest => String (lower_char c) (lower rest)
  end.

(** [str(n)] of an [int]. *)
Definition str_int (n : Z) : string := NilZero.string_of_int (Z.to_int n).

(** [x or default] on an optional [str]: [None] and the empty string are
    false. *)
Definition or_default (x : option string) (default : string) : string :=
  match x with
  | Some s => if Py.truthy s then s else default
  | None => default
  end.

(** A string without the character [c]. *)
Definition no_char (c : ascii) (s : string) : Prop := Py.contains c s = false.

(** A string that does not start with white space. *)
Definition starts_clean (s : string) : Prop :=
  match s with
  | EmptyString => True
  | String c _ => Py.isspace c = false
  end.

End PyMore.

(** ** scraper.py: the fetch methods *)

Module Fetch.

Import Scraper.

Local Open Scope string_scope.

(** The lines [clean_lines] keeps, before it joins them. *)
Definition kept_lines (text : string) : list string :=
  map Py.strip
    (List.filter (fun line => Py.truthy (Py.strip line))
       (Py.split Py.NL text)).

(** A line as [clean_lines] leaves it: not empty, not padded, one line. *)
Definition clean_line (line : string) : Prop :=
  line <> "" /\ Py.strip line = line /\ PyMore.no_char Py.NL line.

(** [f"{base_url}/{section}" if section else base_url] *)
Definition section_url (base_url : string) (section : option string) : string :=
  match section with
  | Some s => if Py.truthy s then base_url ++ "/" ++ s else base_url
  | None => base_url
  end.

Definition PAPER_SELECTORS : list (string * string) :=
  [("main_content", "main"); ("article", "article"); ("content", ".content");
   ("docs", ".docs-content")].

Definition LEAF_SELECTORS : list (string * string) :=
  [("main_content", "main"); ("article", "article"); ("content", ".content");
   ("docs", ".docs-content")].

Definition PURPUR_SELECTORS : list (string * string) :=
  [("main_content", "main"); ("article", "article"); ("content", ".content");
   ("markdown", ".markdown-body")].

Definition WIKI_SELECTORS : list (string * string) :=
  [("content", "#mw-content-text"); ("parser_output", ".mw-parser-output");
   ("main", "main")].

(** [url] of [search_minecraft_wiki] *)
Definition wiki_url (query : string) : string :=
  "https://minecraft.wiki/w/" ++ PyMore.replace " " "_" query.

Section Fetch.

Context `{lib : Bs4}.

(** [DocumentationScraper._fetch_url], the HTTP request, taken as it comes:
    the page text or the exception it raises. *)
Variable _fetch_url : string -> result string.

(** [DocumentationScraper.fetch_paper_docs] *)
Definition fetch_paper_docs (self : DocumentationScraper)
    (section : option string) : result string :=
  do html <- _fetch_url (section_url "https://docs.papermc.io/paper" section);
  _extract_content self html PAPER_SELECTORS.

(** [DocumentationScraper.fetch_leaf_docs] *)
Definition fetch_leaf_docs (self : DocumentationScraper)
    (section : option string) : result string :=
  do html <- _fetch_url (section_url "https://www.leafmc.one/ru" section);
  _extract_content self html LEAF_SELECTORS.

(** [DocumentationScraper.fetch_purpur_docs] *)
Definition fetch_purpur_docs (self : DocumentationScraper)
    (section : option string) : result string :=
  do html <- _fetch_url (section_url "https://purpurmc.org/docs/purpur" section);
  _extract_content self html PURPUR_SELECTORS.

(** [DocumentationScraper.search_minecraft_wiki] *)
Definition search_minecraft_wiki (self : DocumentationScraper)
    (query : string) : result string :=
  do html <- _fetch_url (wiki_url query);
  _extract_content self html WIKI_SELECTORS.

End Fetch.

End Fetch.

(** ** server.py: the documentation tools *)

Module Server.

Import Scraper Fetch.

Local Open Scope string_scope.

(** [f"Error: {error_msg}"] with [error_msg = f"<what>: {str(e)}"] *)
Definition error_reply (what text : string) : string :=
  "Error: " ++ (what ++ text).

Section Tools.

Context `{lib : Bs4}.

(** [scraper._fetch_url], as in [Fetch]. *)
Variable _fetch_url : string -> result string.

(** The module-level [scraper]. *)
Variable scraper : DocumentationScraper.

(** [str(e)] of the [OverflowError] that [cache.set] raises for a
    time-to-live in seconds and a clock reading. *)
Variable overflow_str : Z -> Z -> string.

(** The body the four tools share, from the cache check to the [except]
    clauses.  [cache] is the module-level cache before the call and the
    second component of the result the cache after it; [use_cache] is false
    when [force_refresh] skips the check; [fetched] is what the awaited
    scraper call gives when it is made; the three messages are those of the
    [NetworkError], [ParsingError] and [Exception] clauses.  The call runs
    from its cache check to its return with no other tool in between. *)
Definition cache_aside (cache : Cache.CacheManager string)
    (cache_key : string) (use_cache : bool) (fetched : result string)
    (network_msg parsing_msg other_msg : string)
    (now_get now_set now_cleanup : Z) : string * Cache.CacheManager string :=
  let '(cached, cache1) :=
    if use_cache then Cache.get cache cache_key now_get else (None, cache) in
  let fresh :=
    match fetched with
    | inr content =>
        match Cache.set cache1 cache_key content None now_set now_cleanup with
        | inr cache2 => (content, cache2)
        | inl Cache.OverflowError =>
            (error_reply other_msg
               (overflow_str (Cache.default_ttl cache1) now_set), cache1)
        end
    | inl e =>
        match exn_kind e with
        | NetworkError => (error_reply network_msg (exn_str e), cache1)
        | ParsingError => (error_reply parsing_msg (exn_str e), cache1)
        | _ => (error_reply other_msg (exn_str e), cache1)
        end
    end in
  match cached with
  | Some text => if Py.truthy text then (text, cache1) else fresh
  | None => fresh
  end.

(** The tool [get_paper_docs] *)
Definition get_paper_docs (cache : Cache.CacheManager string)
    (section : option string) (force_refresh : bool)
    (now_get now_set now_cleanup : Z) : string * Cache.CacheManager string :=
  cache_aside cache ("paper:" ++ PyMore.or_default section "index")
    (negb force_refresh) (fetch_paper_docs _fetch_url scraper section)
    "Network error fetching Paper documentation: "
    "Failed to parse Paper documentation: "
    "Unexpected error fetching Paper documentation: "
    now_get now_set now_cleanup.

(** The tool [get_leaf_docs] *)
Definition get_leaf_docs (cache : Cache.CacheManager string)
    (section : option string) (force_refresh : bool)
    (now_get now_set now_cleanup : Z) : string * Cache.CacheManager string :=
  cache_aside cache ("leaf:" ++ PyMore.or_default section "index")
    (negb force_refresh) (fetch_leaf_docs _fetch_url scraper section)
    "Network error fetching Leaf documentation: "
    "Failed to parse Leaf documentation: "
    "Unexpected error fetching Leaf documentation: "
    now_get now_set now_cleanup.

(** The tool [get_purpur_docs] *)
Definition get_purpur_docs (cache : Cache.CacheManager string)
    (section : option string) (force_refresh : bool)
    (now_get now_set now_cleanup : Z) : string * Cache.CacheManager string :=
  cache_aside cache ("purpur:" ++ PyMore.or_default section "index")
    (negb force_refresh) (fetch_purpur_docs _fetch_url scraper section)
    "Network error fetching Purpur documentation: "
    "Failed to parse Purpur documentation: "
    "Unexpected error fetching Purpur documentation: "
    now_get now_set now_cleanup.

(** The tool [search_minecraft_wiki] *)
Definition search_minecraft_wiki (cache : Cache.CacheManager string)
    (query : string) (now_get now_set now_cleanup : Z)
  : string * Cache.CacheManager string :=
  cache_aside cache ("wiki:" ++ PyMore.lower query) true
    (Fetch.search_minecraft_wiki _fetch_url scraper query)
    "Network error searching Minecraft Wiki: "
    "Failed to parse Minecraft Wiki article: "
    "Unexpected error searching Minecraft Wiki: "
    now_get now_set now_cleanup.

End Tools.

(** A network stand-in for the examples: every page is its own address. *)
Definition echo_fetch (url : string) : result string := inr url.

Definition stub_overflow_str (ttl now : Z) : string := "date value out of range".

(** A library stand-in for pages without any region that a selector
    finds. *)
Definition bare_bs4 : Bs4 := {|
  Soup := string;
  Tag := string;
  BeautifulSoup := fun html => inr html;
  select_one := fun _ _ => inr None;
  select := fun _ _ _ => inr [];
  decompose := fun soup _ => inr soup;
  get_text := fun _ element => inr element
|}.

End Server.

(** ** mojang_api.py *)

Module Mojang.

Import Scraper.

Local Open Scope string_scope.

(** What a call into [httpx] raises, by the [except] clause that takes it:
    [httpx.TimeoutException], [httpx.HTTPStatusError] (with
    [e.response.status_code]), any other [httpx.RequestError], and any other
    [Exception]; each with its [str()]. *)
Inductive raised :=
  | TimeoutException (text : string)
  | HTTPStatusError (status : Z) (text : string)
  | RequestError (text : string)
  | OtherException (text : string).

Definition BASE_URL : string := "https://api.mojang.com".
Definition SESSION_URL : string := "https://sessionserver.mojang.com".

Definition RATE_LIMIT_TEXT : string :=
  "Rate limit exceeded. Please try again later. "
  ++ "Mojang API allows max 600 requests per 10 minutes.".

Definition HEX_DIGITS : string := "0123456789abcdefABCDEF".

Record MojangAPIClient := mkClient { timeout : Z }.

Section Client.

(** The decoded body of a response. *)
Variable Json : Type.

(** An [httpx.Response]: its status code, what [raise_for_status()] raises
    if it raises, and what [json()] gives. *)
Record Response := mkResponse {
  status_code : Z;
  raise_for_status : option raised;
  json : raised + Json
}.

(** [self.client.get(url)], with the [timeout] argument when one is given. *)
Variable client_get : string -> option Z -> raised + Response.

(** The text of the exception [data.get('id')] raises when the decoded body
    is no [dict]; [None] when it is one. *)
Variable data_get_raises : Json -> option string.

(** The [except] clauses of [get_player_uuid] and [get_player_profile]. *)
Definition api_failure (self : MojangAPIClient) (e : raised) : exn :=
  match e with
  | TimeoutException _ =>
      Exn NetworkError
        ("Request timed out after " ++ PyMore.str_int (timeout self)
         ++ " seconds")
  | HTTPStatusError status _ =>
      if (status =? 429)%Z then Exn APIError "Rate limit exceeded"
      else Exn APIError ("Mojang API error: HTTP " ++ PyMore.str_int status)
  | RequestError text => Exn NetworkError ("Network error: " ++ text)
  | OtherException text => Exn APIError ("Unexpected error: " ++ text)
  end.

(** The [try] block of both methods, from the request to the [return];
    [after_json] is what the log line of [get_player_uuid] may raise.  The
    [APIError] raised for status 429 is an [Exception] that is no [httpx]
    error. *)
Definition request (url : string) (after_json : Json -> option string)
  : raised + option Json :=
  match client_get url None with
  | inl e => inl e
  | inr response =>
      if (status_code response =? 404)%Z then inr None
      else if (status_code response =? 429)%Z
      then inl (OtherException RATE_LIMIT_TEXT)
      else
        match raise_for_status response with
        | Some e => inl e
        | None =>
            match json response with
            | inl e => inl e
            | inr data =>
                match after_json data with
                | Some text => inl (OtherException text)
                | None => inr (Some data)
                end
            end
        end
  end.

Definition guarded (self : MojangAPIClient) (body : raised + option Json)
  : result (option Json) :=
  match body with
  | inl e => inl (api_failure self e)
  | inr r => inr r
  end.

(** [MojangAPIClient.get_player_uuid] *)
Definition get_player_uuid (self : MojangAPIClient) (username : string)
  : result (option Json) :=
  if negb (Py.truthy username) || negb (Py.truthy (Py.strip username))
  then inl (Exn APIError "Username cannot be empty")
  else if negb (PyMore.isalnum (PyMore.replace "_" "" username))
          || negb ((3 <=? Py.len username) && (Py.len username <=? 16))%Z
  then inl (Exn APIError
              ("Invalid username format: '" ++ username ++ "'. "
               ++ "Must be 3-16 alphanumeric characters or underscores."))
  else
    guarded self
      (request (BASE_URL ++ "/users/profiles/minecraft/" ++ username)
         data_get_raises).

(** [MojangAPIClient.get_player_profile] *)
Definition get_player_profile (self : MojangAPIClient) (uuid : string)
  : result (option Json) :=
  let clean_uuid := PyMore.replace "-" "" uuid in
  if negb (Py.len clean_uuid =? 32)%Z
     || negb (PyMore.all_chars (fun c => Py.contains c HEX_DIGITS) clean_uuid)
  then inl (Exn APIError ("Invalid UUID format: '" ++ uuid ++ "'"))
  else
    guarded self
      (request (SESSION_URL ++ "/session/minecraft/profile/" ++ clean_uuid)
         (fun _ => None)).

(** [status_results[service_name] = status] *)
Fixpoint dict_set (d : list (string * string)) (k v : string)
  : list (string * string) :=
  match d with
  | [] => [(k, v)]
  | (k', v') :: rest =>
      if String.eqb k' k then (k', v) :: rest else (k', v') :: dict_set rest k v
  end.

Definition SERVICES : list (string * string) :=
  [("api.mojang.com", BASE_URL ++ "/");
   ("sessionserver.mojang.com", SESSION_URL ++ "/")].

(** The loop of [get_server_status] over the remaining services; an
    exception that is neither a timeout nor a request error leaves the
    method as it is. *)
Fixpoint check_services (services : list (string * string))
    (status_results : list (string * string))
  : raised + list (string * string) :=
  match services with
  | [] => inr status_results
  | (service_name, service_url) :: rest =>
      match client_get service_url (Some 10) with
      | inr response =>
          if (status_code response <? 500)%Z
          then check_services rest (dict_set status_results service_name "online")
          else check_services rest
                 (dict_set status_results service_name "degraded")
      | inl (TimeoutException _) =>
          check_services rest (dict_set status_results service_name "degraded")
      | inl (RequestError _) =>
          check_services rest (dict_set status_results service_name "offline")
      | inl e => inl e
      end
  end.

(** [MojangAPIClient.get_server_status] *)
Definition get_server_status (self : MojangAPIClient)
  : raised + list (string * string) :=
  check_services SERVICES [].

End Client.

Arguments mkResponse {Json}.
Arguments status_code {Json}.
Arguments raise_for_status {Json}.
Arguments json {Json}.
Arguments api_failure : clear implicits.
Arguments request {Json}.
Arguments guarded {Json}.
Arguments get_player_uuid {Json}.
Arguments get_player_profile {Json}.
Arguments check_services {Json}.
Arguments get_server_status {Json}.

(** The user names that pass the checks of [get_player_uuid]: 3 to 16
    characters, each alphanumeric or an underscore, and not underscores
    only. *)
Definition valid_username (username : string) : bool :=
  ((3 <=? Py.len username) && (Py.len username <=? 16))%Z
  && PyMore.all_chars (fun c => PyMore.isalnum_char c || Ascii.eqb c "_")
       username
  && negb (PyMore.all_chars (fun c => Ascii.eqb c "_") username).

(** The ids that pass the check of [get_player_profile] once their dashes
    are removed: 32 hexadecimal digits. *)
Definition valid_clean_uuid (clean_uuid : string) : bool :=
  (Py.len clean_uuid =? 32)%Z
  && PyMore.all_chars (fun c => Py.contains c HEX_DIGITS) clean_uuid.

Definition STATUSES : list string := ["online"; "degraded"; "offline"].

(** Stand-ins for the examples: a server that knows no one, and one that
    limits the rate. *)
Definition not_found_server (url : string) (t : option Z)
  : raised + Response string :=
  inr (mkResponse 404 (Some (HTTPStatusError 404 "Not Found")) (inr "")).

Definition rate_limited_server (url : string) (t : option Z)
  : raised + Response string :=
  inr (mkResponse 429 (Some (HTTPStatusError 429 "Too Many Requests")) (inr "")).

End Mojang.

(** ** What the statements about the extractor say in their own words *)

Module Words.

Import Scraper.

Local Open Scope string_scope.

(** A printable ASCII character other than the single quote and the
    backslash: [repr] prints it as it is. *)
Definition plain_char (c : ascii) : bool :=
  let n := nat_of_ascii c in
  ((32 <=? n) && (n <? 127) && negb (n =? 39) && negb (n =? 92))%nat.

Definition plain_name (s : string) : bool := PyMore.all_chars plain_char s.

(** A list of names as Python prints it between the brackets: each name in
    single quotes, with a comma and a space between two names. *)
Fixpoint quoted_names (names : list string) : string :=
  match names with
  | [] => ""
  | [name] => "'" ++ name ++ "'"
  | name :: rest => "'" ++ name ++ "', " ++ quoted_names rest
  end.

Section Removal.

Context `{lib : Bs4}.

(** The unwanted elements taken out of the tree one after the other, in
    order, none of the [decompose()] calls raising. *)
Inductive Decomposed : Soup -> list Tag -> Soup -> Prop :=
  | Decomposed_nil soup : Decomposed soup [] soup
  | Decomposed_cons soup u soup1 rest soup' :
      decompose soup u = inr soup1 ->
      Decomposed soup1 rest soup' ->
      Decomposed soup (u :: rest) soup'.

End Removal.

(** [uuid.replace("-", "")] and the checks of [get_player_uuid] on an
    argument that may be [None], as [server.py] can pass it: [None] has no
    [replace], and [not None] is true. *)
Definition NONE_HAS_NO_REPLACE : exn :=
  Exn (LibraryError "AttributeError")
    "'NoneType' object has no attribute 'replace'".

Definition get_player_uuid_arg {Json}
    (client_get : string -> option Z -> Mojang.raised + Mojang.Response Json)
    (data_get_raises : Json -> option string)
    (self : Mojang.MojangAPIClient) (username : option string)
  : result (option Json) :=
  match username with
  | None => inl (Exn APIError "Username cannot be empty")
  | Some name => Mojang.get_player_uuid client_get data_get_raises self name
  end.

Definition get_player_profile_arg {Json}
    (client_get : string -> option Z -> Mojang.raised + Mojang.Response Json)
    (self : Mojang.MojangAPIClient) (uuid : option string)
  : result (option Json) :=
  match uuid with
  | None => inl NONE_HAS_NO_REPLACE
  | Some id => Mojang.get_player_profile client_get self id
  end.

(** A network stand-in that is down. *)
Definition down_fetch (url : string) : result string :=
  inl (Exn NetworkError "Network error: unreachable").

(** A cache holding one live page under the key of the Paper index. *)
Definition paper_cache : Cache.CacheManager string :=
  Cache.mkCacheManager 3600
    (<["paper:index" := Cache.mkCacheEntry "Paper docs" (Cache.T0 + 2)]> ∅).

End Words.

(** * Properties of the cache *)

Module CacheFacts.

Import Cache.

Section Facts.

Context {Data : Type}.
Implicit Types (self : CacheManager Data) (c : gmap string (CacheEntry Data)).
Implicit Types (entry : CacheEntry Data) (key : string) (now : Z).

Lemma is_expired_true now entry :
  is_expired now entry = true ↔ expires_at entry <= now.
Proof. unfold is_expired. rewrite Z.geb_le. reflexivity. Qed.

Lemma is_expired_false now entry :
  is_expired now entry = false ↔ now < expires_at entry.
Proof.
  unfold is_expired. destruct (Z.geb_spec now (expires_at entry)); split;
    intros; try lia; congruence.
Qed.

(** Deleting a list of keys one by one. *)
Lemma lookup_delete_keys (keys : list string) c key :
  fold_left (λ c k, delete k c) keys c !! key
  = if decide (key ∈ keys) then None else c !! key.
Proof.
  revert c. induction keys as [|k keys IH]; intros c.
  - cbn [fold_left]. destruct (decide (key ∈ [])) as [Hin|]; [|done].
    by apply elem_of_nil in Hin.
  - cbn [fold_left]. rewrite IH.
    destruct (decide (key ∈ keys)) as [Hin|Hin];
      destruct (decide (key ∈ k :: keys)) as [Hin'|Hin']; try done.
    + exfalso. apply Hin'. by apply list_elem_of_further.
    + apply elem_of_cons in Hin' as [->|?]; [|done]. apply lookup_delete_eq.
    + apply lookup_delete_ne. intros ->. apply Hin'. apply list_elem_of_here.
Qed.

Lemma elem_of_expired_keys now c key :
  key ∈ expired_keys now c
  ↔ ∃ entry, c !! key = Some entry ∧ is_expired now entry = true.
Proof.
  unfold expired_keys. rewrite list_elem_of_fmap. split.
  - intros [[k e] [-> Hin]]. apply list_elem_of_filter in Hin as [Hexp Hin].
    apply elem_of_map_to_list in Hin. eauto.
  - intros [e [Hc Hexp]]. exists (key, e). split; [done|].
    apply list_elem_of_filter. split; [done|]. by apply elem_of_map_to_list.
Qed.

(** The sweep keeps exactly the entries that are not expired. *)
Lemma cleanup_is_filter self now :
  _cache (_cleanup_expired self now)
  = filter (λ kv, is_expired now kv.2 = false) (_cache self).
Proof.
  unfold _cleanup_expired. simpl. apply map_eq. intros key.
  rewrite lookup_delete_keys.
  destruct (decide (key ∈ expired_keys now (_cache self))) as [Hin|Hin].
  - apply elem_of_expired_keys in Hin as [e [Hc He]].
    symmetry. apply map_lookup_filter_None. right. intros e' Hc'. simpl.
    congruence.
  - destruct (_cache self !! key) as [e|] eqn:Hc.
    + symmetry. apply map_lookup_filter_Some. split; [done|]. simpl.
      destruct (is_expired now e) eqn:He; [|done].
      exfalso. apply Hin. apply elem_of_expired_keys. eauto.
    + symmetry. apply map_lookup_filter_None. by left.
Qed.

Lemma cleanup_default_ttl self now :
  default_ttl (_cleanup_expired self now) = default_ttl self.
Proof. reflexivity. Qed.

Lemma py_sum_ones {A} (l : list A) :
  py_sum (map (λ _, 1) l) = Z.of_nat (length l).
Proof.
  unfold py_sum.
  assert (H : ∀ acc, fold_left Z.add (map (λ _ : A, 1) l) acc
                     = acc + Z.of_nat (length l)).
  { induction l as [|x l IH]; intros acc; simpl length; simpl map; simpl fold_left.
    - lia.
    - rewrite IH. lia. }
  rewrite H. lia.
Qed.

(** Counting over the values of the map is counting in the map. *)
Lemma count_values_filter (P : CacheEntry Data → Prop)
    `{∀ e, Decision (P e)} c :
  length (filter P ((map_to_list c).*2)) = size (filter (λ kv, P kv.2) c).
Proof.
  induction c as [|key entry c Hnone IH] using map_ind.
  - by rewrite map_to_list_empty, map_filter_empty, map_size_empty.
  - rewrite map_to_list_insert by done.
    rewrite fmap_cons, filter_cons. cbn [snd].
    destruct (decide (P entry)) as [HP|HP].
    + rewrite map_filter_insert_True by done.
      rewrite map_size_insert_None.
      * cbn [length]. by rewrite IH.
      * apply map_lookup_filter_None. by left.
    + rewrite map_filter_insert_False by done.
      rewrite delete_id by done. done.
Qed.

End Facts.

End CacheFacts.

Module CacheSet.

Import Cache CacheFacts.

Section SetFacts.

Context {Data : Type}.
Implicit Types (self : CacheManager Data) (c : gmap string (CacheEntry Data)).
Implicit Types (entry : CacheEntry Data) (key : string) (now : Z).

Lemma datetime_in_range_spec t :
  datetime_in_range t = true
  ↔ 0 <= t < MAXORDINAL * SECONDS_PER_DAY * US_PER_SECOND.
Proof.
  unfold datetime_in_range. rewrite andb_true_iff, Z.leb_le, Z.ltb_lt. lia.
Qed.

Lemma timedelta_in_range now s :
  datetime_in_range now = true →
  datetime_in_range (now + s * US_PER_SECOND) = true →
  timedelta s = inr (s * US_PER_SECOND).
Proof.
  rewrite !datetime_in_range_spec. unfold timedelta.
  unfold MAXORDINAL, SECONDS_PER_DAY, US_PER_SECOND, MAX_DELTA_DAYS.
  intros Hnow Hsum.
  assert (Hle : Z.abs (s / 86400) <= 999999999).
  { Z.div_mod_to_equations. lia. }
  apply Z.leb_le in Hle. by rewrite Hle.
Qed.

Lemma set_in_range self key d ttl now now_cleanup :
  datetime_in_range now = true →
  datetime_in_range (expiry self ttl now) = true →
  set self key d ttl now now_cleanup
  = inr (after_set self key d ttl now now_cleanup).
Proof.
  intros Hnow Hexp. unfold set, after_set, expiry in *.
  fold (ttl_seconds self ttl).
  rewrite (timedelta_in_range now) by done.
  unfold datetime_add. cbv zeta. rewrite Hexp.
  by destruct (Z.of_nat (size _) mod 10 =? 0).
Qed.

Lemma set_inr self key d ttl now now_cleanup self' :
  set self key d ttl now now_cleanup = inr self' →
  datetime_in_range (expiry self ttl now) = true
  ∧ self' = after_set self key d ttl now now_cleanup.
Proof.
  unfold set, after_set, expiry. fold (ttl_seconds self ttl).
  unfold timedelta.
  destruct (Z.abs (ttl_seconds self ttl / SECONDS_PER_DAY) <=? MAX_DELTA_DAYS);
    [|done].
  unfold datetime_add. cbv zeta.
  destruct (datetime_in_range (now + ttl_seconds self ttl * US_PER_SECOND));
    [|done].
  destruct (Z.of_nat (size _) mod 10 =? 0); intros [= <-]; done.
Qed.

Lemma after_set_cache self key d ttl now now_cleanup :
  let c1 := <[key := mkCacheEntry d (expiry self ttl now)]> (_cache self) in
  _cache (after_set self key d ttl now now_cleanup)
  = if Z.of_nat (size c1) mod 10 =? 0
    then filter (λ kv, is_expired now_cleanup kv.2 = false) c1
    else c1.
Proof.
  cbv zeta. unfold after_set. cbn [_cache with_cache].
  destruct (Z.of_nat (size _) mod 10 =? 0); [|done].
  by rewrite cleanup_is_filter.
Qed.

Lemma after_set_default_ttl self key d ttl now now_cleanup :
  default_ttl (after_set self key d ttl now now_cleanup) = default_ttl self.
Proof.
  unfold after_set. by destruct (Z.of_nat (size _) mod 10 =? 0).
Qed.

(** After [set], the key holds the new entry unless the sweep removed it. *)
Lemma after_set_lookup self key d ttl now now_cleanup :
  _cache (after_set self key d ttl now now_cleanup) !! key
  = (if (Z.of_nat (size (<[key := mkCacheEntry d (expiry self ttl now)]>
                           (_cache self))) mod 10 =? 0)
        && is_expired now_cleanup (mkCacheEntry d (expiry self ttl now))
     then None
     else Some (mkCacheEntry d (expiry self ttl now))).
Proof.
  rewrite after_set_cache. cbv zeta.
  destruct (Z.of_nat (size _) mod 10 =? 0); cbn [andb].
  - destruct (is_expired now_cleanup _) eqn:He.
    + apply map_lookup_filter_None. right. intros e.
      rewrite lookup_insert_eq. intros [= <-]. cbn [snd]. congruence.
    + apply map_lookup_filter_Some. by rewrite lookup_insert_eq.
  - apply lookup_insert_eq.
Qed.

(** Fresh keys written into a store that stays below ten entries: no sweep
    runs, and every call's entry is there at the end. *)
Lemma set_all_below_ten (calls : list (SetCall Data)) self self' :
  NoDup (call_key <$> calls) →
  (∀ call, call ∈ calls → _cache self !! call_key call = None) →
  (size (_cache self) + length calls < 10)%nat →
  set_all self calls = inr self' →
  default_ttl self' = default_ttl self
  ∧ size (_cache self') = (size (_cache self) + length calls)%nat
  ∧ (∀ key, key ∉ call_key <$> calls →
       _cache self' !! key = _cache self !! key)
  ∧ (∀ call, call ∈ calls →
       _cache self' !! call_key call
       = Some (mkCacheEntry (call_data call)
                 (expiry self (call_ttl call) (call_now call)))).
Proof.
  revert self. induction calls as [|call calls IH]; intros self Hnd Hfresh Hsz.
  - cbn [set_all]. intros [= <-]. cbn [length].
    repeat split; [lia | intros ? H; by apply elem_of_nil in H].
  - cbn [set_all]. unfold set_call.
    destruct (set self _ _ _ _ _) as [e|self1] eqn:Hset; [done|].
    apply set_inr in Hset as [_ ->]. intros Hall.
    rewrite fmap_cons in Hnd. apply NoDup_cons in Hnd as [Hhd Hnd].
    assert (Hnone : _cache self !! call_key call = None).
    { apply Hfresh. apply list_elem_of_here. }
    set (entry := mkCacheEntry (call_data call)
                    (expiry self (call_ttl call) (call_now call))) in *.
    assert (Hc1 : _cache (after_set self (call_key call) (call_data call)
                            (call_ttl call) (call_now call)
                            (call_now_cleanup call))
                  = <[call_key call := entry]> (_cache self)).
    { rewrite after_set_cache. cbv zeta. fold entry.
      rewrite map_size_insert_None by done.
      cbn [length] in Hsz.
      destruct (Z.eqb_spec (Z.of_nat (S (size (_cache self))) mod 10) 0)
        as [Hmod|]; [|done].
      exfalso. rewrite Z.mod_small in Hmod; lia. }
    apply IH in Hall; first last.
    + rewrite Hc1, map_size_insert_None by done. cbn [length] in Hsz. lia.
    + intros call' Hin. rewrite Hc1.
      rewrite lookup_insert_ne.
      * apply Hfresh. by apply list_elem_of_further.
      * intros Heq. apply Hhd. rewrite Heq.
        apply list_elem_of_fmap. eauto.
    + done.
    + destruct Hall as (Httl & Hsize & Hother & Hcalls).
      rewrite after_set_default_ttl in Httl.
      rewrite Hc1 in Hsize, Hother.
      rewrite map_size_insert_None in Hsize by done.
      repeat split.
      * done.
      * cbn [length]. lia.
      * intros key Hkey. rewrite fmap_cons in Hkey.
        apply not_elem_of_cons in Hkey as [Hne Hkey].
        rewrite Hother by done. by rewrite lookup_insert_ne.
      * intros call' Hin. apply elem_of_cons in Hin as [->|Hin].
        -- rewrite Hother by done. by rewrite lookup_insert_eq.
        -- rewrite Hcalls by done. unfold expiry, ttl_seconds.
           by rewrite after_set_default_ttl.
Qed.

End SetFacts.

End CacheSet.

(** * The cache: the statements of the specification *)

Module CacheSpec.

Import Cache CacheFacts CacheSet.

(** C1.  [get] never returns the value of an entry that is expired at the
    time of the call: a returned value comes from an entry of the key with
    [now < expires_at], and when the entry of the key is expired
    ([now >= expires_at]) the call returns [None] and deletes that entry:
    the store afterwards is the old one without the key, so the key is gone
    and every other key is as before, and the default TTL is kept. *)
Theorem get_never_returns_expired {Data} (self : CacheManager Data)
    (key : string) (now : Z) :
  (∀ v, (get self key now).1 = Some v →
     ∃ entry, _cache self !! key = Some entry ∧ data entry = v
              ∧ now < expires_at entry)
  ∧ (∀ entry, _cache self !! key = Some entry → now >= expires_at entry →
       (get self key now).1 = None
       ∧ _cache (get self key now).2 = delete key (_cache self)
       ∧ _cache (get self key now).2 !! key = None
       ∧ (∀ key', key' ≠ key →
            _cache (get self key now).2 !! key' = _cache self !! key')
       ∧ default_ttl (get self key now).2 = default_ttl self).
Proof.
  unfold get. split.
  - intros v. destruct (_cache self !! key) as [entry|] eqn:Hc; [|done].
    destruct (is_expired now entry) eqn:He; [done|]. cbn [fst].
    intros [= <-]. exists entry. apply is_expired_false in He. done.
  - intros entry -> Hge.
    assert (He : is_expired now entry = true) by (apply is_expired_true; lia).
    rewrite He. cbn [fst snd _cache with_cache default_ttl].
    split_and!; [done | done | apply lookup_delete_eq | | done].
    intros key' Hne. by apply lookup_delete_ne.
Qed.

(** An expired read on a store of two entries: the answer is [None] and the
    entry is gone afterwards, the live one still there. *)
Lemma expired_read_example :
  (get two_entries "b" (T0 + 1)).1 = None
  ∧ _cache (get two_entries "b" (T0 + 1)).2
    = delete "b" (_cache two_entries)
  ∧ _cache (get two_entries "b" (T0 + 1)).2 !! "b" = None
  ∧ (∀ key', key' ≠ "b" →
       _cache (get two_entries "b" (T0 + 1)).2 !! key'
       = _cache two_entries !! key')
  ∧ default_ttl (get two_entries "b" (T0 + 1)).2 = default_ttl two_entries.
Proof.
  apply (proj2 (get_never_returns_expired two_entries "b" (T0 + 1))
           (mkCacheEntry "stale" T0)).
  - vm_compute. reflexivity.
  - vm_compute. discriminate.
Defined.

(** C5, as the code has it.  For ttl > 0 such that the expiry [now + ttl] is
    still a [datetime] (not after the year 9999), [set] succeeds, and a [get]
    of the key before ttl has elapsed, with no sweep reading the clock later
    than that either, returns exactly the stored value and leaves the store
    as it is. *)
Theorem set_get_roundtrip {Data} (self : CacheManager Data) (key : string)
    (v : Data) (ttl now now_cleanup now_get : Z) :
  ttl > 0 →
  datetime_in_range now = true →
  datetime_in_range (now + ttl * US_PER_SECOND) = true →
  now_cleanup < now + ttl * US_PER_SECOND →
  now_get < now + ttl * US_PER_SECOND →
  ∃ self', set self key v (Some ttl) now now_cleanup = inr self'
           ∧ get self' key now_get = (Some v, self').
Proof.
  intros Hpos Hnow Hexp Hsweep Hget.
  exists (after_set self key v (Some ttl) now now_cleanup). split.
  - by apply set_in_range.
  - unfold get. rewrite after_set_lookup.
    unfold expiry, ttl_seconds.
    set (entry := mkCacheEntry v (now + ttl * US_PER_SECOND)).
    assert (Hs : is_expired now_cleanup entry = false)
      by (apply is_expired_false; simpl; lia).
    assert (Hg : is_expired now_get entry = false)
      by (apply is_expired_false; simpl; lia).
    rewrite Hs, andb_false_r, Hg. done.
Qed.

Lemma roundtrip_within_ttl_example :
  ∃ self', set (init string 3600) "mojang:status" "online" (Some 300) T0 T0
           = inr self'
           ∧ get self' "mojang:status" (T0 + 299 * US_PER_SECOND)
             = (Some "online", self').
Proof.
  apply (set_get_roundtrip (init string 3600) "mojang:status" "online" 300
           T0 T0 (T0 + 299 * US_PER_SECOND)); vm_compute; reflexivity.
Defined.

(** C5 as stated fails: a positive ttl of 10^12 seconds puts the expiry past
    the year 9999, and [set] raises [OverflowError] instead of storing. *)
Lemma huge_ttl_set_raises :
  1000000000000 > 0
  ∧ set (init string 3600) "wiki:creeper" "article" (Some 1000000000000) T0 T0
    = inl OverflowError.
Proof. split; vm_compute; reflexivity. Qed.

(** C6, as the code has it.  For ttl zero or negative such that the expiry
    [now + ttl] is still a [datetime] (not before the year 1), [set]
    succeeds, and a [get] of the key at any time at or after the [set]
    reports a miss. *)
Theorem set_nonpositive_ttl_is_stale {Data} (self : CacheManager Data)
    (key : string) (v : Data) (ttl now now_cleanup now_get : Z) :
  ttl <= 0 →
  datetime_in_range now = true →
  datetime_in_range (now + ttl * US_PER_SECOND) = true →
  now <= now_get →
  ∃ self', set self key v (Some ttl) now now_cleanup = inr self'
           ∧ (get self' key now_get).1 = None.
Proof.
  intros Hneg Hnow Hexp Hget.
  exists (after_set self key v (Some ttl) now now_cleanup). split.
  - by apply set_in_range.
  - unfold get. rewrite after_set_lookup.
    unfold expiry, ttl_seconds.
    set (entry := mkCacheEntry v (now + ttl * US_PER_SECOND)).
    assert (Hg : is_expired now_get entry = true).
    { apply is_expired_true. simpl. unfold US_PER_SECOND. lia. }
    destruct (_ && _); [done|]. by rewrite Hg.
Qed.

Lemma zero_ttl_example :
  ∃ self', set (init string 3600) "paper:index" "docs" (Some 0) T0 T0
           = inr self'
           ∧ (get self' "paper:index" T0).1 = None.
Proof.
  apply (set_nonpositive_ttl_is_stale (init string 3600) "paper:index" "docs"
           0 T0 T0 T0); vm_compute; first [reflexivity | discriminate].
Defined.

(** C6 as stated fails: a ttl of -10^12 seconds puts the expiry before the
    year 1, and [set] raises [OverflowError]. *)
Lemma very_negative_ttl_set_raises :
  -1000000000000 <= 0
  ∧ set (init string 3600) "paper:index" "docs" (Some (-1000000000000)) T0 T0
    = inl OverflowError.
Proof. split; vm_compute; first [reflexivity | discriminate]. Qed.

(** C7, as the code has it.  A [set] that does not raise sweeps exactly when
    the store holds a multiple of ten entries after the insertion, and the
    sweep removes every entry expired at its clock reading, store-wide.  Ten
    [set] calls with pairwise distinct keys on an empty store therefore end
    with a store in which no entry is expired at the tenth call's sweep, and
    in which every written entry that is still live then is present. *)
Theorem sweep_on_multiple_of_ten {Data} :
  (∀ (self self' : CacheManager Data) key d ttl now now_cleanup,
     set self key d ttl now now_cleanup = inr self' →
     let c1 :=
       <[key := mkCacheEntry d (expiry self ttl now)]> (_cache self) in
     _cache self'
     = if Z.of_nat (size c1) mod 10 =? 0
       then filter (λ kv, is_expired now_cleanup kv.2 = false) c1
       else c1)
  ∧ (∀ (self self' : CacheManager Data) calls last,
       _cache self = ∅ →
       length calls = 9%nat →
       NoDup (call_key <$> calls ++ [last]) →
       set_all self (calls ++ [last]) = inr self' →
       (∀ key entry, _cache self' !! key = Some entry →
          is_expired (call_now_cleanup last) entry = false)
       ∧ (∀ call, call ∈ calls ++ [last] →
            call_now_cleanup last
            < expiry self (call_ttl call) (call_now call) →
            ∃ entry, _cache self' !! call_key call = Some entry
                     ∧ data entry = call_data call)).
Proof.
  split.
  - intros self self' key d ttl now now_cleanup Hset.
    apply set_inr in Hset as [_ ->]. apply after_set_cache.
  - intros self self' calls last Hempty Hlen Hnd Hall.
    assert (Hsplit : ∃ self9, set_all self calls = inr self9
                              ∧ set_call self9 last = inr self').
    { clear Hnd Hlen Hempty. revert self Hall.
      induction calls as [|call calls IH]; intros self; cbn [app set_all].
      - destruct (set_call self last) as [|s] eqn:Hs; [done|].
        intros [= <-]. eauto.
      - destruct (set_call self call) as [|s]; [done|]. apply IH. }
    destruct Hsplit as (self9 & H9 & Hlast).
    rewrite fmap_app in Hnd. apply NoDup_app in Hnd as (Hnd & Hdisj & _).
    apply set_all_below_ten in H9; first last.
    { rewrite Hempty, map_size_empty, Hlen. lia. }
    { intros ? _. by rewrite Hempty. }
    { done. }
    destruct H9 as (Httl & Hsize & Hother & Hcalls).
    unfold set_call in Hlast. apply set_inr in Hlast as [_ ->].
    assert (Hfresh : _cache self9 !! call_key last = None).
    { rewrite Hother, Hempty; [done|].
      intros Hin. apply (Hdisj _ Hin). cbn. apply list_elem_of_here. }
    assert (Hcache : _cache (after_set self9 (call_key last) (call_data last)
                               (call_ttl last) (call_now last)
                               (call_now_cleanup last))
                     = filter (λ kv, is_expired (call_now_cleanup last) kv.2
                                     = false)
                         (<[call_key last :=
                              mkCacheEntry (call_data last)
                                (expiry self (call_ttl last) (call_now last))]>
                            (_cache self9))).
    { rewrite after_set_cache. cbv zeta.
      rewrite map_size_insert_None by done.
      rewrite Hsize, Hempty, map_size_empty, Hlen. cbn [Nat.add].
      unfold expiry, ttl_seconds. by rewrite Httl. }
    rewrite Hcache. split.
    + intros key entry Hl. by apply map_lookup_filter_Some in Hl as [_ ?].
    + intros call Hin Hlive.
      apply elem_of_app in Hin as [Hin|Hin].
      * exists (mkCacheEntry (call_data call)
                  (expiry self (call_ttl call) (call_now call))).
        split; [|done]. apply map_lookup_filter_Some. split.
        -- rewrite lookup_insert_ne.
           ++ by apply Hcalls.
           ++ intros Heq. apply (Hdisj (call_key call)).
              ** apply list_elem_of_fmap. eauto.
              ** rewrite <- Heq. cbn. apply list_elem_of_here.
        -- cbn [snd]. by apply is_expired_false.
      * apply list_elem_of_singleton in Hin as ->.
        exists (mkCacheEntry (call_data last)
                  (expiry self (call_ttl last) (call_now last))).
        split; [|done]. apply map_lookup_filter_Some. split.
        -- apply lookup_insert_eq.
        -- cbn [snd]. by apply is_expired_false.
Qed.

(** C7 as stated fails: ten [set] calls, the first writing a live entry and
    the other nine an already expired entry under one key, leave two entries
    in the store, so no sweep runs and the expired entry is still there when
    the tenth call returns. *)
Lemma ten_sets_keep_expired_entry :
  length ten_calls_two_keys = 10%nat
  ∧ ∃ self' entry,
      set_all (init string 3600) ten_calls_two_keys = inr self'
      ∧ _cache self' !! "mojang:status" = Some entry
      ∧ is_expired T0 entry = true.
Proof.
  split; [reflexivity|].
  eexists _, _. split; [vm_compute; reflexivity|].
  split; vm_compute; reflexivity.
Qed.

Lemma ten_distinct_keys_example :
  ∃ self', set_all (init string 3600) (nine_stale_calls ++ [tenth_call])
           = inr self'
           ∧ (∀ key entry, _cache self' !! key = Some entry →
                is_expired T0 entry = false)
           ∧ ∃ entry, _cache self' !! "k9" = Some entry ∧ data entry = "page".
Proof.
  destruct (set_all (init string 3600) (nine_stale_calls ++ [tenth_call]))
    as [e|self'] eqn:Hall.
  - vm_compute in Hall. discriminate.
  - exists self'. split; [reflexivity|].
    destruct (proj2 (@sweep_on_multiple_of_ten string) (init string 3600)
                self' nine_stale_calls tenth_call) as [Hlive Hkept].
    + reflexivity.
    + reflexivity.
    + apply (bool_decide_unpack _). vm_compute. reflexivity.
    + exact Hall.
    + split; [exact Hlive|].
      apply (Hkept tenth_call).
      * apply elem_of_app. right. apply list_elem_of_here.
      * vm_compute. reflexivity.
Defined.

(** C8.  [get_stats] leaves the manager as it is, also when expired entries
    are present, and reports the number of entries, the number of entries
    with [now >= expires_at], their difference as the active count (so that
    total = active + expired, with neither count negative), and the
    configured default TTL. *)
Theorem get_stats_read_only {Data} (self : CacheManager Data) (now : Z) :
  let (stats, self') := get_stats self now in
  self' = self
  ∧ total_entries stats = active_entries stats + expired_entries stats
  ∧ total_entries stats = Z.of_nat (size (_cache self))
  ∧ expired_entries stats
    = Z.of_nat (size (filter (λ kv, now >= expires_at kv.2) (_cache self)))
  ∧ 0 <= expired_entries stats <= total_entries stats
  ∧ stats_default_ttl stats = default_ttl self.
Proof.
  unfold get_stats. cbn [total_entries active_entries expired_entries
                         stats_default_ttl].
  rewrite py_sum_ones.
  rewrite (count_values_filter (λ e, is_expired now e = true)).
  assert (Hfilter :
    filter (λ kv : string * CacheEntry Data, is_expired now kv.2 = true)
      (_cache self)
    = filter (λ kv, now >= expires_at kv.2) (_cache self)).
  { apply map_filter_ext. intros key entry _. cbn [snd].
    rewrite is_expired_true. lia. }
  rewrite Hfilter.
  pose proof (map_subseteq_size _ _
                (map_filter_subseteq (λ kv : string * CacheEntry Data,
                                        now >= expires_at kv.2)
                   (_cache self))) as Hle.
  repeat split; lia.
Qed.

(** [get_stats] on a store with one live and one expired entry: both are
    still there afterwards, while [get] on the expired key deletes it. *)
Lemma stats_two_entries_example :
  get_stats two_entries (T0 + 1)
  = (mkStats 2 1 1 3600, two_entries)
  ∧ (get two_entries "b" (T0 + 1)).1 = None
  ∧ _cache (get two_entries "b" (T0 + 1)).2 !! "b" = None.
Proof. repeat split; vm_compute; reflexivity. Qed.

End CacheSpec.

(** * Properties of the extractor *)

Module ScraperFacts.

Import Scraper.

Lemma app_string_cons (c : ascii) (s t : string) :
  (String c s ++ t = String c (s ++ t))%string.
Proof. reflexivity. Qed.

Lemma app_string_nil (t : string) : ("" ++ t)%string = t.
Proof. reflexivity. Qed.

Lemma length_app_string (s t : string) :
  String.length (s ++ t)%string = (String.length s + String.length t)%nat.
Proof.
  induction s as [|c s IH].
  - by rewrite app_string_nil.
  - rewrite app_string_cons. cbn [String.length]. by rewrite IH.
Qed.

Lemma length_first_chars (n : nat) (s : string) :
  (n <= String.length s)%nat → String.length (substring 0 n s) = n.
Proof.
  revert s. induction n as [|n IH]; intros [|c s]; cbn; try lia.
  intros Hle. rewrite IH; lia.
Qed.

Lemma first_chars_prefix (n : nat) (s : string) :
  ∃ rest, s = (substring 0 n s ++ rest)%string.
Proof.
  revert s. induction n as [|n IH]; intros [|c s]; cbn [substring].
  - by exists "".
  - by exists (String c s).
  - by exists "".
  - destruct (IH s) as [rest Hrest]. exists rest.
    by rewrite app_string_cons, <- Hrest.
Qed.

Lemma slice_to_nonneg (s : string) (n : Z) :
  (0 <= n)%Z → Py.slice_to s n = substring 0 (Z.to_nat n) s.
Proof.
  intros Hn. unfold Py.slice_to.
  destruct (Z.ltb_spec n 0); [lia | done].
Qed.

Lemma clean_lines_empty : clean_lines "" = "".
Proof. reflexivity. Qed.

Section Loop.

Context `{lib : Bs4}.

(** The loop passes over the rules that do not match and stops at the first
    that does. *)
Lemma select_loop_first_match soup pre name selector element post :
  Forall (no_match soup) pre →
  select_one soup selector = inr (Some element) →
  select_loop soup (pre ++ (name, selector) :: post)
  = (pre ++ [(name, selector)], inr (Some element)).
Proof.
  intros Hpre Hsel. induction Hpre as [|[n s] pre Hn _ IH]; cbn.
  - by rewrite Hsel.
  - unfold no_match in Hn. cbn in Hn. by rewrite Hn, IH.
Qed.

Lemma select_loop_no_match soup rules :
  Forall (no_match soup) rules →
  select_loop soup rules = (rules, inr None).
Proof.
  intros Hall. induction Hall as [|[n s] rules Hn _ IH]; cbn; [done|].
  unfold no_match in Hn. cbn in Hn. by rewrite Hn, IH.
Qed.

(** What the body computes once an element is chosen. *)
Lemma extract_body_found self html rules soup element :
  BeautifulSoup html = inr soup →
  snd (select_loop soup rules) = inr (Some element) →
  extract_body self html rules
  = (do unwanted <- select soup element UNWANTED;
     do soup' <- decompose_all soup unwanted;
     do text <- get_text soup' element;
     inr (truncate self (clean_lines text))).
Proof. intros Hp Hl. unfold extract_body. rewrite Hp. cbn. by rewrite Hl. Qed.

Lemma extract_found self html rules soup element unwanted soup' raw :
  BeautifulSoup html = inr soup →
  snd (select_loop soup rules) = inr (Some element) →
  select soup element UNWANTED = inr unwanted →
  decompose_all soup unwanted = inr soup' →
  get_text soup' element = inr raw →
  _extract_content self html rules = inr (truncate self (clean_lines raw)).
Proof.
  intros Hp Hl Hs Hd Hg. unfold _extract_content.
  rewrite (extract_body_found _ _ _ _ _ Hp Hl), Hs. cbn.
  rewrite Hd. cbn. by rewrite Hg.
Qed.

End Loop.

End ScraperFacts.

(** * The extractor and the words of its statements *)

Module WordsFacts.

Import Scraper ScraperFacts Words.

Lemma app_string_assoc (s t u : string) :
  ((s ++ t) ++ u = s ++ (t ++ u))%string.
Proof.
  induction s as [|c s IH]; [by rewrite !app_string_nil|].
  by rewrite !app_string_cons, IH.
Qed.

Lemma plain_char_repr c :
  plain_char c = true → Py.repr_char Py.SQUOTE c = String c "".
Proof.
  destruct c as [b0 b1 b2 b3 b4 b5 b6 b7].
  destruct b0, b1, b2, b3, b4, b5, b6, b7; vm_compute;
    intros H; first [reflexivity | discriminate H].
Qed.

Lemma plain_char_not_quote c :
  plain_char c = true → Ascii.eqb Py.SQUOTE c = false.
Proof.
  destruct c as [b0 b1 b2 b3 b4 b5 b6 b7].
  destruct b0, b1, b2, b3, b4, b5, b6, b7; vm_compute;
    intros H; first [reflexivity | discriminate H].
Qed.

Lemma plain_name_no_quote s :
  plain_name s = true → Py.contains Py.SQUOTE s = false.
Proof.
  unfold plain_name. induction s as [|c s IH]; [done|].
  cbn [PyMore.all_chars Py.contains]. intros [Hc Hs]%andb_true_iff.
  by rewrite (plain_char_not_quote c Hc), IH.
Qed.

Lemma plain_name_repr_chars s :
  plain_name s = true → Py.repr_chars Py.SQUOTE s = s.
Proof.
  unfold plain_name. induction s as [|c s IH]; [done|].
  cbn [PyMore.all_chars Py.repr_chars]. intros [Hc Hs]%andb_true_iff.
  rewrite (plain_char_repr c Hc), IH by done.
  by rewrite app_string_cons, app_string_nil.
Qed.

(** [repr] of a plain name is the name between single quotes. *)
Lemma plain_name_repr s :
  plain_name s = true → Py.repr_str s = ("'" ++ s ++ "'")%string.
Proof.
  intros Hs. unfold Py.repr_str.
  rewrite (plain_name_no_quote s Hs). cbn [andb].
  by rewrite (plain_name_repr_chars s Hs).
Qed.

Lemma plain_names_join names :
  Forall (λ name, plain_name name = true) names →
  Py.join ", " (map Py.repr_str names) = quoted_names names.
Proof.
  induction names as [|name names IH]; [done|]. intros Hall.
  apply Forall_cons in Hall as [Hname Hall]. specialize (IH Hall).
  destruct names as [|name' names].
  - cbn [map Py.join quoted_names]. by apply plain_name_repr.
  - change (Py.join ", " (map Py.repr_str (name :: name' :: names)))
      with (Py.repr_str name ++ ", "
            ++ Py.join ", " (map Py.repr_str (name' :: names)))%string.
    rewrite IH, (plain_name_repr name Hname).
    change (quoted_names (name :: name' :: names))
      with ("'" ++ name ++ "', " ++ quoted_names (name' :: names))%string.
    rewrite !app_string_assoc. reflexivity.
Qed.

(** A list of plain names prints as its quoted names between brackets. *)
Lemma plain_names_repr_list names :
  Forall (λ name, plain_name name = true) names →
  Py.repr_list names = ("[" ++ quoted_names names ++ "]")%string.
Proof. intros Hall. unfold Py.repr_list. by rewrite plain_names_join. Qed.

Section Removal.

Context `{lib : Bs4}.

(** The loop over the unwanted elements returns exactly when every
    [decompose()] does, with the tree they leave. *)
Lemma decompose_all_Decomposed soup unwanted soup' :
  Decomposed soup unwanted soup' → decompose_all soup unwanted = inr soup'.
Proof.
  induction 1 as [soup|soup u soup1 rest soup' Hu _ IH]; [done|].
  cbn [decompose_all]. rewrite Hu. cbn [bind]. exact IH.
Qed.

End Removal.

End WordsFacts.

(** * The extractor: the statements of the specification *)

Module ScraperSpec.

Import Scraper ScraperFacts Words WordsFacts.

(** C2.  The rules are consulted in the given order and the extraction stops
    at the first rule whose selector finds an element: when the rules before
    it find nothing, the selectors handed to the library are exactly those up
    to and including it, and the rules after it are never consulted, so that
    the result does not depend on them, whatever they would match.  The
    element that rule found is the one the extraction uses: once the unwanted
    elements under it are taken out, the result is its text, with blank lines
    dropped, lines stripped and the whole truncated, and an error of the
    library while reading that element comes out as the [ParsingError]. *)
Theorem first_matching_rule_wins `{lib : Bs4} (self : DocumentationScraper)
    (html : string) (soup : Soup) (pre post : list (string * string))
    (name selector : string) (element : Tag) :
  BeautifulSoup html = inr soup →
  Forall (no_match soup) pre →
  select_one soup selector = inr (Some element) →
  select_loop soup (pre ++ (name, selector) :: post)
  = (pre ++ [(name, selector)], inr (Some element))
  ∧ (∀ post', _extract_content self html (pre ++ (name, selector) :: post')
              = _extract_content self html (pre ++ (name, selector) :: post))
  ∧ (∀ unwanted soup' raw,
       select soup element UNWANTED = inr unwanted →
       Decomposed soup unwanted soup' →
       get_text soup' element = inr raw →
       let lines :=
         map Py.strip
           (List.filter (λ line, Py.truthy (Py.strip line))
              (Py.split Py.NL raw)) in
       let text := Py.join (String Py.NL "") lines in
       _extract_content self html (pre ++ (name, selector) :: post)
       = inr (if Py.len text >? max_content_length self
              then (Py.slice_to text (max_content_length self)
                    ++ TRUNCATION_MARKER)%string
              else text))
  ∧ (∀ unwanted soup' e,
       select soup element UNWANTED = inr unwanted →
       Decomposed soup unwanted soup' →
       get_text soup' element = inl e →
       _extract_content self html (pre ++ (name, selector) :: post)
       = inl (Exn ParsingError
                ("Failed to parse HTML content: " ++ exn_str e)%string)).
Proof.
  intros Hparse Hpre Hsel.
  pose proof (select_loop_first_match soup pre name selector element post
                Hpre Hsel) as Hloop.
  split_and!.
  - exact Hloop.
  - intros post'. unfold _extract_content, extract_body.
    rewrite Hparse. cbn [bind].
    by rewrite !(select_loop_first_match soup pre name selector element).
  - intros unwanted soup' raw Hselect Hdec Htext.
    apply decompose_all_Decomposed in Hdec.
    rewrite (extract_found self html _ soup element unwanted soup' raw);
      [reflexivity | done | by rewrite Hloop | done | done | done].
  - intros unwanted soup' e Hselect Hdec Htext.
    apply decompose_all_Decomposed in Hdec.
    unfold _extract_content.
    rewrite (extract_body_found self html _ soup element);
      [|done|by rewrite Hloop].
    rewrite Hselect. cbn [bind]. rewrite Hdec. cbn [bind].
    by rewrite Htext.
Qed.

Lemma fallback_chain_example :
  @select_loop stub_bs4 "Hello"
    ([("content", ".content")] ++ ("main", "main") :: [("broken", "!")])
  = ([("content", ".content")] ++ [("main", "main")], inr (Some "Hello"))
  ∧ (∀ post',
       @_extract_content stub_bs4 (mkScraper 30 1000) "Hello"
         ([("content", ".content")] ++ ("main", "main") :: post')
       = @_extract_content stub_bs4 (mkScraper 30 1000) "Hello"
           ([("content", ".content")] ++ ("main", "main") :: [("broken", "!")]))
  ∧ @_extract_content stub_bs4 (mkScraper 30 1000) "Hello"
      ([("content", ".content")] ++ ("main", "main") :: [("broken", "!")])
    = inr "Hello"%string.
Proof.
  destruct (@first_matching_rule_wins stub_bs4 (mkScraper 30 1000) "Hello"
              "Hello" [("content", ".content")] [("broken", "!")] "main" "main"
              "Hello") as (Hloop & Hpost & Hfound & _).
  - reflexivity.
  - repeat constructor.
  - reflexivity.
  - split_and!; [exact Hloop | exact Hpost |].
    apply (Hfound [] "Hello"%string "Hello"%string).
    + reflexivity.
    + constructor.
    + reflexivity.
Defined.

(** C3.  When the cleaned text of the chosen element is longer than
    [max_content_length] (a length, so not negative), the result is the first
    [max_content_length] characters of that text followed by the marker; the
    marker is not counted, so the result is [max_content_length] plus the
    24 characters of the marker long.  With [max_content_length = 0] every
    non-empty cleaned text gives the marker alone. *)
Theorem truncation_appends_marker `{lib : Bs4} (self : DocumentationScraper)
    (html : string) (rules : list (string * string)) (soup soup' : Soup)
    (element : Tag) (unwanted : list Tag) (raw : string) :
  BeautifulSoup html = inr soup →
  snd (select_loop soup rules) = inr (Some element) →
  select soup element UNWANTED = inr unwanted →
  decompose_all soup unwanted = inr soup' →
  get_text soup' element = inr raw →
  0 <= max_content_length self →
  let text := clean_lines raw in
  let head := substring 0 (Z.to_nat (max_content_length self)) text in
  (Py.len text > max_content_length self →
     _extract_content self html rules = inr (head ++ TRUNCATION_MARKER)%string
     ∧ (∃ rest, text = (head ++ rest)%string)
     ∧ Py.len head = max_content_length self
     ∧ Py.len (head ++ TRUNCATION_MARKER)%string
       = max_content_length self + Py.len TRUNCATION_MARKER
     ∧ Py.len TRUNCATION_MARKER = 24)
  ∧ (max_content_length self = 0 → text ≠ ""%string →
       _extract_content self html rules = inr TRUNCATION_MARKER).
Proof.
  intros Hparse Hloop Hsel Hdec Htext Hmax text head.
  pose proof (extract_found self html rules soup element unwanted soup' raw
                Hparse Hloop Hsel Hdec Htext) as Hres.
  fold text in Hres.
  assert (Hlong : Py.len text > max_content_length self →
                  truncate self text = (head ++ TRUNCATION_MARKER)%string).
  { intros Hgt. unfold truncate.
    destruct (Z.gtb_spec (Py.len text) (max_content_length self)); [|lia].
    by rewrite slice_to_nonneg. }
  split.
  - intros Hgt. rewrite Hres, (Hlong Hgt).
    assert (Hhead : Py.len head = max_content_length self).
    { unfold Py.len, head in *. rewrite length_first_chars; lia. }
    repeat split.
    + apply first_chars_prefix.
    + done.
    + unfold Py.len in *. rewrite length_app_string. lia.
  - intros Hzero Hne. rewrite Hres, Hlong.
    + unfold head. rewrite Hzero. cbn [Z.to_nat]. by destruct text.
    + rewrite Hzero. unfold Py.len. destruct text; [done|]. cbn. lia.
Qed.

Lemma truncated_hello_example :
  @_extract_content stub_bs4 (mkScraper 30 3) "  hello  world "
    [("main", "main")]
  = inr ("hel" ++ TRUNCATION_MARKER)%string
  ∧ @_extract_content stub_bs4 (mkScraper 30 0) "  hello  world "
      [("main", "main")]
    = inr TRUNCATION_MARKER.
Proof.
  split.
  - edestruct (@truncation_appends_marker stub_bs4 (mkScraper 30 3)
                 "  hello  world " [("main", "main")])
      as [Hlong _];
      [reflexivity | reflexivity | reflexivity | reflexivity | reflexivity
      | vm_compute; discriminate |].
    apply Hlong. vm_compute. reflexivity.
  - edestruct (@truncation_appends_marker stub_bs4 (mkScraper 30 0)
                 "  hello  world " [("main", "main")])
      as [_ Hzero];
      [reflexivity | reflexivity | reflexivity | reflexivity | reflexivity
      | vm_compute; discriminate |].
    apply Hzero; [reflexivity | vm_compute; discriminate].
Defined.

(** C4.  When the document parses and no rule finds an element, the
    extraction raises [ParsingError] and returns nothing; the message carries
    the list of the rule names, as Python prints it: for names of printable
    ASCII without quote or backslash, every name in single quotes, in the
    order of the rules, separated by a comma and a space, between
    brackets. *)
Theorem no_match_raises_parsing_error `{lib : Bs4}
    (self : DocumentationScraper) (html : string) (soup : Soup)
    (rules : list (string * string)) :
  BeautifulSoup html = inr soup →
  Forall (no_match soup) rules →
  _extract_content self html rules
  = inl (Exn ParsingError
           ("Failed to parse HTML content: "
            ++ "Could not find content using selectors: "
            ++ Py.repr_list (map fst rules))%string)
  ∧ (Forall (λ name, plain_name name = true) (map fst rules) →
       _extract_content self html rules
       = inl (Exn ParsingError
                ("Failed to parse HTML content: "
                 ++ "Could not find content using selectors: "
                 ++ "[" ++ quoted_names (map fst rules) ++ "]")%string)).
Proof.
  intros Hparse Hnone.
  assert (Hres : _extract_content self html rules
                 = inl (Exn ParsingError
                          ("Failed to parse HTML content: "
                           ++ "Could not find content using selectors: "
                           ++ Py.repr_list (map fst rules))%string)).
  { unfold _extract_content, extract_body.
    rewrite Hparse. cbn [bind]. by rewrite select_loop_no_match. }
  split; [exact Hres|].
  intros Hplain. by rewrite Hres, plain_names_repr_list.
Qed.

Lemma missing_content_example :
  @_extract_content stub_bs4 (mkScraper 30 1000) "Hello"
    [("content", ".content"); ("docs", ".docs-content")]
  = inl (Exn ParsingError
           ("Failed to parse HTML content: "
            ++ "Could not find content using selectors: "
            ++ "['content', 'docs']")%string).
Proof.
  destruct (@no_match_raises_parsing_error stub_bs4 (mkScraper 30 1000)
              "Hello" "Hello"
              [("content", ".content"); ("docs", ".docs-content")])
    as [_ Hplain].
  - reflexivity.
  - repeat constructor.
  - apply Hplain. repeat constructor.
Defined.

(** C9.  When a rule finds an element whose text is empty, the extraction
    returns the empty string and does not raise ([max_content_length] is a
    length, so not negative). *)
Theorem empty_text_is_not_a_failure `{lib : Bs4} (self : DocumentationScraper)
    (html : string) (rules : list (string * string)) (soup soup' : Soup)
    (element : Tag) (unwanted : list Tag) :
  BeautifulSoup html = inr soup →
  snd (select_loop soup rules) = inr (Some element) →
  select soup element UNWANTED = inr unwanted →
  decompose_all soup unwanted = inr soup' →
  get_text soup' element = inr ""%string →
  0 <= max_content_length self →
  _extract_content self html rules = inr ""%string.
Proof.
  intros Hparse Hloop Hsel Hdec Htext Hmax.
  rewrite (extract_found self html rules soup element unwanted soup' ""
             Hparse Hloop Hsel Hdec Htext).
  rewrite clean_lines_empty. unfold truncate.
  destruct (Z.gtb_spec (Py.len "") (max_content_length self)) as [Hgt|]; [|done].
  unfold Py.len in Hgt. cbn in Hgt. lia.
Qed.

Lemma empty_document_example :
  @_extract_content stub_bs4 (mkScraper 30 1000) ""
    [("content", ".content"); ("main", "main")]
  = inr ""%string.
Proof.
  apply (@empty_text_is_not_a_failure stub_bs4 (mkScraper 30 1000) ""
           [("content", ".content"); ("main", "main")] ""%string ""%string
           ""%string []);
    first [reflexivity | vm_compute; discriminate].
Defined.

(** C10.  The extraction either returns a text or raises [ParsingError]:
    whatever the body of the [try] block raises (the parser, a selector, or
    its own no-match [ParsingError]) comes out as a [ParsingError] whose
    message is [Failed to parse HTML content: ] followed by the text of the
    original error. *)
Theorem failures_are_parsing_errors `{lib : Bs4} (self : DocumentationScraper)
    (html : string) (rules : list (string * string)) :
  match _extract_content self html rules with
  | inr text => extract_body self html rules = inr text
  | inl e =>
      exn_kind e = ParsingError
      ∧ ∃ e0, extract_body self html rules = inl e0
              ∧ exn_str e
                = ("Failed to parse HTML content: " ++ exn_str e0)%string
  end
  ∧ (∀ e0, BeautifulSoup html = inl e0 →
       _extract_content self html rules
       = inl (Exn ParsingError
                ("Failed to parse HTML content: " ++ exn_str e0)%string))
  ∧ (∀ soup e0, BeautifulSoup html = inr soup →
       snd (select_loop soup rules) = inl e0 →
       _extract_content self html rules
       = inl (Exn ParsingError
                ("Failed to parse HTML content: " ++ exn_str e0)%string)).
Proof.
  unfold _extract_content. repeat split.
  - destruct (extract_body self html rules) as [e0|text]; [|done].
    split; [done|]. by exists e0.
  - intros e0 Hparse. unfold extract_body. by rewrite Hparse.
  - intros soup e0 Hparse Hloop. unfold extract_body.
    rewrite Hparse. cbn [bind]. by rewrite Hloop.
Qed.

(** A selector the library rejects, and a document it cannot parse. *)
Lemma rejected_inputs_example :
  @_extract_content stub_bs4 (mkScraper 30 1000) "Hello" [("broken", "!")]
  = inl (Exn ParsingError "Failed to parse HTML content: Invalid character")
  ∧ @_extract_content stub_bs4 (mkScraper 30 1000) "!" [("main", "main")]
    = inl (Exn ParsingError "Failed to parse HTML content: no parse").
Proof. split; reflexivity. Qed.

End ScraperSpec.

(** * More on the cache *)

Module CacheMore.

Import Cache CacheFacts CacheSet.

Section More.

Context {Data : Type}.
Implicit Types (self : CacheManager Data).
Implicit Types (c : gmap string (CacheEntry Data)).
Implicit Types (entry : CacheEntry Data) (key : string) (now : Z).

Lemma with_cache_same self : with_cache self (_cache self) = self.
Proof. by destruct self. Qed.

Lemma manager_eq (self1 self2 : CacheManager Data) :
  default_ttl self1 = default_ttl self2 → _cache self1 = _cache self2 →
  self1 = self2.
Proof. destruct self1, self2. cbn. by intros -> ->. Qed.

Lemma filter_live_not_expired now c :
  filter (λ kv : string * CacheEntry Data, ¬ is_expired now kv.2 = true) c
  = filter (λ kv, is_expired now kv.2 = false) c.
Proof.
  apply map_filter_ext. intros k e _. cbn [snd].
  by destruct (is_expired now e).
Qed.

(** Expired and live entries partition the store. *)
Lemma size_expired_live now c :
  (size (filter (λ kv, is_expired now kv.2 = true) c)
   + size (filter (λ kv, is_expired now kv.2 = false) c))%nat
  = size c.
Proof.
  rewrite <- filter_live_not_expired.
  rewrite <- map_size_disj_union by apply map_disjoint_filter_complement.
  by rewrite map_filter_union_complement.
Qed.

(** The numbers [get_stats] reports, as sizes of parts of the store. *)
Lemma get_stats_sizes self now :
  (get_stats self now).1
  = mkStats (Z.of_nat (size (_cache self)))
      (Z.of_nat (size (filter (λ kv, is_expired now kv.2 = false)
                         (_cache self))))
      (Z.of_nat (size (filter (λ kv, is_expired now kv.2 = true)
                         (_cache self))))
      (default_ttl self).
Proof.
  unfold get_stats. cbn [fst]. rewrite py_sum_ones.
  rewrite (count_values_filter (λ e, is_expired now e = true)).
  f_equal. pose proof (size_expired_live now (_cache self)). lia.
Qed.

Lemma get_result self key now :
  (get self key now).1
  = match _cache self !! key with
    | Some entry => if is_expired now entry then None else Some (data entry)
    | None => None
    end.
Proof.
  unfold get. destruct (_cache self !! key) as [e|]; [|done].
  by destruct (is_expired now e).
Qed.

End More.

End CacheMore.

Module CacheExtra.

Import Cache CacheFacts CacheSet CacheMore.

(** [invalidate] removes the entry of its key and nothing else: the store is
    the old one without the key, a later [get] of the key misses, a [get] of
    any other key answers as before, and on an absent key the manager is left
    as it is. *)
Theorem invalidate_removes_only_key {Data} (self : CacheManager Data)
    (key : string) :
  _cache (invalidate self key) = delete key (_cache self)
  ∧ default_ttl (invalidate self key) = default_ttl self
  ∧ (∀ now, get (invalidate self key) key now = (None, invalidate self key))
  ∧ (∀ key' now, key' ≠ key →
       (get (invalidate self key) key' now).1 = (get self key' now).1)
  ∧ (_cache self !! key = None → invalidate self key = self).
Proof.
  assert (Hc : _cache (invalidate self key) = delete key (_cache self)).
  { unfold invalidate. destruct (_cache self !! key) eqn:Hk; [done|].
    by rewrite delete_id. }
  split_and!.
  - done.
  - unfold invalidate. by destruct (_cache self !! key).
  - intros now. unfold get. by rewrite Hc, lookup_delete_eq.
  - intros key' now Hne. rewrite !get_result, Hc.
    by rewrite lookup_delete_ne.
  - intros Hnone. unfold invalidate. by rewrite Hnone.
Qed.

(** [clear] reports the number of entries it removes and leaves an empty
    store with the same default TTL: every later [get] misses and
    [get_stats] reports zero entries. *)
Theorem clear_empties_store {Data} (self : CacheManager Data) :
  (clear self).1 = size (_cache self)
  ∧ _cache (clear self).2 = ∅
  ∧ default_ttl (clear self).2 = default_ttl self
  ∧ (∀ key now, get (clear self).2 key now = (None, (clear self).2))
  ∧ (∀ now, (get_stats (clear self).2 now).1
            = mkStats 0 0 0 (default_ttl self)).
Proof.
  unfold clear. cbn [fst snd].
  split_and!; [done | done | done | |].
  - intros key now. unfold get. cbn [_cache with_cache].
    by rewrite lookup_empty.
  - intros now. rewrite get_stats_sizes. cbn [_cache with_cache default_ttl].
    by rewrite !map_filter_empty, map_size_empty.
Qed.

(** [set] raises exactly when the expiry it computes is not a [datetime]:
    with the clock reading in range, the call raises [OverflowError] if and
    only if [now + ttl] (the default TTL when no ttl is given) falls outside
    the years 1 to 9999, and otherwise it returns. *)
Theorem set_raises_iff_expiry_out_of_range {Data} (self : CacheManager Data)
    (key : string) (d : Data) (ttl : option Z) (now now_cleanup : Z) :
  datetime_in_range now = true →
  (set self key d ttl now now_cleanup = inl OverflowError
   ↔ datetime_in_range (expiry self ttl now) = false)
  ∧ (set self key d ttl now now_cleanup
     = inr (after_set self key d ttl now now_cleanup)
     ↔ datetime_in_range (expiry self ttl now) = true).
Proof.
  intros Hnow.
  destruct (datetime_in_range (expiry self ttl now)) eqn:Hexp.
  - rewrite set_in_range by done. split; split; done.
  - destruct (set self key d ttl now now_cleanup) as [[]|self'] eqn:Hset.
    + split; split; done.
    + apply set_inr in Hset as [Hin _]. congruence.
Qed.

Lemma default_ttl_in_range_example :
  (set (init string 3600) "paper:index" "docs" None T0 T0
   = inl OverflowError
   ↔ datetime_in_range (expiry (init string 3600) None T0) = false)
  ∧ (set (init string 3600) "paper:index" "docs" None T0 T0
     = inr (after_set (init string 3600) "paper:index" "docs" None T0 T0)
     ↔ datetime_in_range (expiry (init string 3600) None T0) = true).
Proof.
  apply (set_raises_iff_expiry_out_of_range (init string 3600)). reflexivity.
Defined.

(** [set] touches no other key, except that its sweep may drop expired
    ones: after a [set] that returns, an entry under another key was there
    before, unchanged; an entry under another key that is not expired at the
    sweep's clock reading is still there; and the store has grown by at most
    one entry. *)
Theorem set_leaves_other_keys {Data} (self self' : CacheManager Data)
    (key : string) (d : Data) (ttl : option Z) (now now_cleanup : Z) :
  set self key d ttl now now_cleanup = inr self' →
  default_ttl self' = default_ttl self
  ∧ (∀ key' entry', key' ≠ key →
       _cache self' !! key' = Some entry' →
       _cache self !! key' = Some entry')
  ∧ (∀ key' entry', key' ≠ key →
       _cache self !! key' = Some entry' →
       is_expired now_cleanup entry' = false →
       _cache self' !! key' = Some entry')
  ∧ (size (_cache self') ≤ size (_cache self) + 1)%nat.
Proof.
  intros Hset. apply set_inr in Hset as [_ ->].
  split; [apply after_set_default_ttl|].
  rewrite after_set_cache. cbv zeta.
  set (c1 := <[key := mkCacheEntry d (expiry self ttl now)]> (_cache self)).
  assert (Hsize : (size c1 ≤ size (_cache self) + 1)%nat).
  { unfold c1. rewrite map_size_insert.
    destruct (_cache self !! key) eqn:Hk; cbn.
    - pose proof (map_size_ne_0_lookup_2 (_cache self) key ltac:(eauto)). lia.
    - lia. }
  destruct (Z.of_nat (size c1) mod 10 =? 0); split_and!.
  - intros key' entry' Hne Hl.
    apply map_lookup_filter_Some in Hl as [Hl _].
    unfold c1 in Hl. by rewrite lookup_insert_ne in Hl.
  - intros key' entry' Hne Hl Hlive.
    apply map_lookup_filter_Some. split; [|done].
    unfold c1. by rewrite lookup_insert_ne.
  - pose proof (map_size_filter
                  (λ kv : string * CacheEntry Data,
                     is_expired now_cleanup kv.2 = false) c1). lia.
  - intros key' entry' Hne Hl. unfold c1 in Hl.
    by rewrite lookup_insert_ne in Hl.
  - intros key' entry' Hne Hl _. unfold c1. by rewrite lookup_insert_ne.
  - done.
Qed.

(** With a clock that does not go back, a [set] is invisible to the readers
    of other keys: whatever its sweep removes was expired already, so a later
    [get] of another key returns what it would have returned without the
    [set]. *)
Theorem set_invisible_for_other_keys {Data} (self self' : CacheManager Data)
    (key key' : string) (d : Data) (ttl : option Z)
    (now now_cleanup now_get : Z) :
  set self key d ttl now now_cleanup = inr self' →
  key' ≠ key →
  now_cleanup <= now_get →
  (get self' key' now_get).1 = (get self key' now_get).1.
Proof.
  intros Hset Hne Hclock. apply set_inr in Hset as [_ ->].
  rewrite !get_result, after_set_cache. cbv zeta.
  destruct (Z.of_nat (size _) mod 10 =? 0).
  - rewrite map_lookup_filter, lookup_insert_ne by done.
    destruct (_cache self !! key') as [e|]; [|done]. cbn.
    destruct (is_expired now_cleanup e) eqn:He.
    + rewrite option_guard_False by (cbn; congruence).
      apply is_expired_true in He.
      assert (Hg : is_expired now_get e = true)
        by (apply is_expired_true; lia).
      by rewrite Hg.
    + by rewrite option_guard_True.
  - by rewrite lookup_insert_ne.
Qed.

Lemma unrelated_reader_example :
  (get (after_set two_entries "c" "new" None (T0 + 1) (T0 + 1)) "b"
     (T0 + 1)).1
  = (get two_entries "b" (T0 + 1)).1.
Proof.
  apply (set_invisible_for_other_keys two_entries _ "c" "b" "new" None
           (T0 + 1) (T0 + 1) (T0 + 1)).
  - vm_compute. reflexivity.
  - discriminate.
  - vm_compute. discriminate.
Defined.

(** The sweep [_cleanup_expired] changes no answer: run at a time [now], it
    leaves no expired entry for [get_stats] to count at that time, keeps the
    active count, and every [get] at [now] or later returns what it would
    have returned without the sweep.  Running it twice is running it once. *)
Theorem cleanup_changes_no_answer {Data} (self : CacheManager Data) (now : Z) :
  expired_entries (get_stats (_cleanup_expired self now) now).1 = 0
  ∧ active_entries (get_stats (_cleanup_expired self now) now).1
    = active_entries (get_stats self now).1
  ∧ total_entries (get_stats (_cleanup_expired self now) now).1
    = active_entries (get_stats self now).1
  ∧ (∀ key now', now <= now' →
       (get (_cleanup_expired self now) key now').1 = (get self key now').1)
  ∧ _cleanup_expired (_cleanup_expired self now) now
    = _cleanup_expired self now.
Proof.
  assert (Hlive :
    filter (λ kv : string * CacheEntry Data, is_expired now kv.2 = false)
      (_cache (_cleanup_expired self now))
    = _cache (_cleanup_expired self now)).
  { rewrite cleanup_is_filter, map_filter_filter.
    apply map_filter_ext. intros k e _. cbn [snd]. tauto. }
  assert (Hexp :
    filter (λ kv : string * CacheEntry Data, is_expired now kv.2 = true)
      (_cache (_cleanup_expired self now)) = ∅).
  { rewrite cleanup_is_filter, map_filter_filter.
    apply map_empty. intros k. apply map_lookup_filter_None. right.
    intros e _ [H1 H2]. cbn [snd] in *. congruence. }
  rewrite !get_stats_sizes. cbn [expired_entries active_entries total_entries].
  rewrite Hlive, Hexp, map_size_empty, cleanup_is_filter.
  split_and!; try done.
  - intros key now' Hclock. rewrite !get_result, cleanup_is_filter.
    rewrite map_lookup_filter.
    destruct (_cache self !! key) as [e|]; [|done]. cbn.
    destruct (is_expired now e) eqn:He.
    + rewrite option_guard_False by (cbn; congruence).
      apply is_expired_true in He.
      assert (Hg : is_expired now' e = true) by (apply is_expired_true; lia).
      by rewrite Hg.
    + by rewrite option_guard_True.
  - apply manager_eq; [done|].
    rewrite cleanup_is_filter. apply Hlive.
Qed.

(** A second [get] of the same key at the same time gives the same answer
    and changes nothing any more; a [get] never touches the entry of another
    key, and a hit leaves the whole manager as it is. *)
Theorem get_settles_after_one_call {Data} (self : CacheManager Data)
    (key : string) (now : Z) :
  get (get self key now).2 key now = get self key now
  ∧ (∀ key', key' ≠ key →
       _cache (get self key now).2 !! key' = _cache self !! key')
  ∧ default_ttl (get self key now).2 = default_ttl self
  ∧ (∀ v, (get self key now).1 = Some v → (get self key now).2 = self).
Proof.
  destruct (_cache self !! key) as [e|] eqn:Hk.
  - destruct (is_expired now e) eqn:He.
    + assert (Hget : get self key now
                     = (None, with_cache self (delete key (_cache self))))
        by (unfold get; by rewrite Hk, He).
      rewrite Hget. cbn [fst snd]. split_and!; try done.
      * unfold get. cbn [_cache with_cache]. by rewrite lookup_delete_eq.
      * intros key' Hne. cbn [_cache with_cache]. by rewrite lookup_delete_ne.
    + assert (Hget : get self key now = (Some (data e), self))
        by (unfold get; by rewrite Hk, He).
      rewrite Hget. cbn [fst snd]. by rewrite Hget.
  - assert (Hget : get self key now = (None, self))
      by (unfold get; by rewrite Hk).
    rewrite Hget. cbn [fst snd]. by rewrite Hget.
Qed.

(** Reading an expired key takes its entry out of the statistics: after the
    [get], [get_stats] at the same time reports one entry less in total and
    one less expired, with the active count as before. *)
Theorem get_expired_updates_stats {Data} (self : CacheManager Data)
    (key : string) (entry : CacheEntry Data) (now : Z) :
  _cache self !! key = Some entry →
  now >= expires_at entry →
  let before := (get_stats self now).1 in
  let after := (get_stats (get self key now).2 now).1 in
  total_entries after = total_entries before - 1
  ∧ expired_entries after = expired_entries before - 1
  ∧ active_entries after = active_entries before.
Proof.
  intros Hk Hge. cbv zeta.
  assert (He : is_expired now entry = true) by (apply is_expired_true; lia).
  assert (Hget : _cache (get self key now).2 = delete key (_cache self)).
  { unfold get. by rewrite Hk, He. }
  rewrite !get_stats_sizes, Hget.
  cbn [total_entries expired_entries active_entries].
  rewrite !map_filter_delete.
  pose proof (map_size_delete_Some key (_cache self) ltac:(eauto)) as Ht.
  pose proof (map_size_ne_0_lookup_2 (_cache self) key ltac:(eauto)) as Hpos.
  assert (Hin : filter (λ kv : string * CacheEntry Data,
                         is_expired now kv.2 = true) (_cache self) !! key
                = Some entry).
  { by apply map_lookup_filter_Some. }
  pose proof (map_size_delete_Some key _ ltac:(eauto)) as Hx.
  pose proof (map_size_ne_0_lookup_2 _ key ltac:(eauto)) as Hxpos.
  rewrite (delete_id (filter (λ kv : string * CacheEntry Data,
                         is_expired now kv.2 = false) (_cache self))).
  - lia.
  - apply map_lookup_filter_None. right. intros e' He'. cbn.
    assert (e' = entry) as -> by congruence. congruence.
Qed.

Lemma stale_read_stats_example :
  let before := (get_stats two_entries (T0 + 1)).1 in
  let after := (get_stats (get two_entries "b" (T0 + 1)).2 (T0 + 1)).1 in
  total_entries after = total_entries before - 1
  ∧ expired_entries after = expired_entries before - 1
  ∧ active_entries after = active_entries before.
Proof.
  apply (get_expired_updates_stats two_entries "b" (mkCacheEntry "stale" T0)).
  - vm_compute. reflexivity.
  - vm_compute. discriminate.
Defined.

Lemma other_keys_after_set_example :
  default_ttl (after_set two_entries "c" "new" None (T0 + 1) (T0 + 1))
  = default_ttl two_entries
  ∧ (∀ key' entry', key' ≠ "c" →
       _cache (after_set two_entries "c" "new" None (T0 + 1) (T0 + 1)) !! key'
       = Some entry' →
       _cache two_entries !! key' = Some entry')
  ∧ (∀ key' entry', key' ≠ "c" →
       _cache two_entries !! key' = Some entry' →
       is_expired (T0 + 1) entry' = false →
       _cache (after_set two_entries "c" "new" None (T0 + 1) (T0 + 1)) !! key'
       = Some entry')
  ∧ (size (_cache (after_set two_entries "c" "new" None (T0 + 1) (T0 + 1)))
     ≤ size (_cache two_entries) + 1)%nat.
Proof.
  apply (set_leaves_other_keys two_entries _ "c" "new" None (T0 + 1) (T0 + 1)).
  vm_compute. reflexivity.
Defined.

End CacheExtra.

(** * More on Python strings and on the extractor *)

Module ScraperMore.

Import Scraper ScraperFacts PyMore Fetch.

(** ** [split] and [join] *)

Lemma contains_cons c c' s :
  Py.contains c (String c' s) = Ascii.eqb c c' || Py.contains c s.
Proof. reflexivity. Qed.

Lemma split_not_nil sep s : Py.split sep s ≠ [].
Proof.
  destruct s as [|c s]; cbn; [done|].
  destruct (Ascii.eqb c sep); [done|]. by destruct (Py.split sep s).
Qed.

Lemma split_fields_no_sep sep s : Forall (no_char sep) (Py.split sep s).
Proof.
  induction s as [|c s IH]; cbn [Py.split].
  - by repeat constructor.
  - destruct (Ascii.eqb c sep) eqn:Hc.
    + constructor; [done|exact IH].
    + destruct (Py.split sep s) as [|f fs].
      { constructor; [|constructor]. unfold no_char.
        by rewrite contains_cons, Ascii.eqb_sym, Hc. }
      apply Forall_cons in IH as [Hf Hfs]. constructor; [|done].
      unfold no_char in *. rewrite contains_cons, Hf.
      rewrite Ascii.eqb_sym, Hc. done.
Qed.

Lemma split_no_sep sep s : no_char sep s → Py.split sep s = [s].
Proof.
  unfold no_char. induction s as [|c s IH]; [done|].
  rewrite contains_cons. intros [Hc Hs]%orb_false_iff.
  cbn [Py.split]. rewrite Ascii.eqb_sym, Hc. by rewrite IH.
Qed.

Lemma split_app_sep sep s t :
  no_char sep s →
  Py.split sep (s ++ String sep t)%string = s :: Py.split sep t.
Proof.
  unfold no_char. induction s as [|c s IH].
  - intros _. rewrite app_string_nil. cbn [Py.split].
    by rewrite Ascii.eqb_refl.
  - rewrite contains_cons. intros [Hc Hs]%orb_false_iff.
    rewrite app_string_cons. cbn [Py.split].
    rewrite Ascii.eqb_sym, Hc. by rewrite IH.
Qed.

(** Splitting what [join] built gives the fields back. *)
Lemma split_join sep fields :
  fields ≠ [] → Forall (no_char sep) fields →
  Py.split sep (Py.join (String sep "") fields) = fields.
Proof.
  induction fields as [|f fields IH]; [done|]. intros _ Hall.
  apply Forall_cons in Hall as [Hf Hall].
  destruct fields as [|g fields].
  - cbn [Py.join]. by apply split_no_sep.
  - change (Py.join (String sep "") (f :: g :: fields))
      with (f ++ String sep "" ++ Py.join (String sep "") (g :: fields))%string.
    rewrite app_string_cons, app_string_nil.
    rewrite split_app_sep by done. by rewrite IH.
Qed.

(** ** [strip] *)

Lemma lstrip_starts_clean s : starts_clean (Py.lstrip s).
Proof.
  induction s as [|c s IH]; [done|]. cbn [Py.lstrip].
  by destruct (Py.isspace c) eqn:Hc.
Qed.

Lemma lstrip_clean s : starts_clean s → Py.lstrip s = s.
Proof. destruct s as [|c s]; [done|]. cbn. by intros ->. Qed.

Lemma rstrip_cons c s :
  Py.rstrip (String c s)
  = match Py.rstrip s with
    | EmptyString => if Py.isspace c then EmptyString else String c EmptyString
    | String d r => String c (String d r)
    end.
Proof. reflexivity. Qed.

Lemma rstrip_starts_clean s : starts_clean s → starts_clean (Py.rstrip s).
Proof.
  destruct s as [|c s]; [done|]. rewrite rstrip_cons. cbn [starts_clean].
  intros Hc. destruct (Py.rstrip s); [by rewrite Hc|done].
Qed.

Lemma rstrip_rstrip s : Py.rstrip (Py.rstrip s) = Py.rstrip s.
Proof.
  induction s as [|c s IH]; [done|]. rewrite rstrip_cons.
  destruct (Py.rstrip s) as [|d r] eqn:Hr.
  - destruct (Py.isspace c) eqn:Hc; [done|].
    rewrite rstrip_cons. cbn [Py.rstrip]. by rewrite Hc.
  - rewrite rstrip_cons, IH. done.
Qed.

Lemma strip_strip s : Py.strip (Py.strip s) = Py.strip s.
Proof.
  unfold Py.strip.
  rewrite (lstrip_clean (Py.rstrip (Py.lstrip s))).
  - apply rstrip_rstrip.
  - apply rstrip_starts_clean, lstrip_starts_clean.
Qed.

Lemma lstrip_no_char c s : no_char c s → no_char c (Py.lstrip s).
Proof.
  unfold no_char. induction s as [|d s IH]; [done|].
  cbn [Py.lstrip]. destruct (Py.isspace d); [|done].
  rewrite contains_cons. intros [_ Hs]%orb_false_iff. by apply IH.
Qed.

Lemma rstrip_no_char c s : no_char c s → no_char c (Py.rstrip s).
Proof.
  unfold no_char. induction s as [|d s IH]; [done|].
  rewrite contains_cons. intros [Hd Hs]%orb_false_iff.
  rewrite rstrip_cons. specialize (IH Hs).
  destruct (Py.rstrip s) as [|e r].
  - destruct (Py.isspace d); [done|]. by rewrite contains_cons, Hd.
  - by rewrite contains_cons, Hd, IH.
Qed.

Lemma strip_no_char c s : no_char c s → no_char c (Py.strip s).
Proof. intros H. by apply rstrip_no_char, lstrip_no_char. Qed.

(** ** The lines [clean_lines] keeps *)

Lemma clean_lines_kept text :
  clean_lines text = Py.join (String Py.NL "") (kept_lines text).
Proof. reflexivity. Qed.

Lemma kept_lines_clean text : Forall clean_line (kept_lines text).
Proof.
  unfold kept_lines.
  pose proof (split_fields_no_sep Py.NL text) as Hsplit.
  induction Hsplit as [|line lines Hline _ IH]; cbn [List.filter map].
  - constructor.
  - destruct (Py.truthy (Py.strip line)) eqn:Ht; [|exact IH].
    cbn [map]. constructor; [|exact IH]. split_and!.
    + intros Heq. by rewrite Heq in Ht.
    + apply strip_strip.
    + by apply strip_no_char.
Qed.

Lemma kept_lines_of_clean lines :
  lines ≠ [] → Forall clean_line lines →
  kept_lines (Py.join (String Py.NL "") lines) = lines.
Proof.
  intros Hne Hall. unfold kept_lines.
  rewrite split_join; [|done|].
  - clear Hne. induction Hall as [|l ls (Hl & Hs & _) _ IH]; [done|].
    cbn [List.filter]. rewrite Hs.
    destruct l as [|c l]; [done|]. cbn [Py.truthy map]. by rewrite Hs, IH.
  - eapply Forall_impl; [exact Hall|]. by intros l (_ & _ & ?).
Qed.

Lemma clean_lines_lines text :
  clean_lines text = ""%string
  ∨ Py.split Py.NL (clean_lines text) = kept_lines text.
Proof.
  rewrite clean_lines_kept.
  pose proof (kept_lines_clean text) as Hclean.
  destruct (kept_lines text) as [|line lines] eqn:Hk; [by left|]. right.
  apply split_join; [done|].
  eapply Forall_impl; [exact Hclean|]. by intros l (_ & _ & ?).
Qed.

Lemma clean_lines_idempotent text :
  clean_lines (clean_lines text) = clean_lines text.
Proof.
  rewrite !clean_lines_kept.
  pose proof (kept_lines_clean text) as Hclean.
  destruct (kept_lines text) as [|line lines] eqn:Hk; [reflexivity|].
  by rewrite kept_lines_of_clean.
Qed.

Section Body.

Context `{lib : Bs4}.

(** A returned text is the cleaned text of some element, once truncated. *)
Lemma extract_inr self html rules text :
  _extract_content self html rules = inr text →
  ∃ raw, text = truncate self (clean_lines raw).
Proof.
  unfold _extract_content.
  destruct (extract_body self html rules) as [e|t] eqn:Hb; [done|].
  intros [= <-]. revert Hb. unfold extract_body.
  destruct (BeautifulSoup html) as [|soup]; [done|]. cbn [bind].
  destruct (snd (select_loop soup rules)) as [|[element|]]; [done| |done].
  cbn [bind].
  destruct (select soup element UNWANTED) as [|unwanted]; [done|]. cbn [bind].
  destruct (decompose_all soup unwanted) as [|soup']; [done|]. cbn [bind].
  destruct (get_text soup' element) as [|raw]; [done|]. cbn [bind].
  intros [= <-]. by exists raw.
Qed.

End Body.

End ScraperMore.

Module ScraperExtra.

Import Scraper ScraperFacts PyMore Fetch ScraperMore.

(** The clean-up leaves no blank line and no padded line, and cleaning a
    cleaned text changes nothing: [clean_lines] is idempotent, and its result
    is empty or splits at the newlines into lines that are non-empty and
    equal to their own [strip]. *)
Theorem clean_lines_normal_form (text : string) :
  clean_lines (clean_lines text) = clean_lines text
  ∧ (clean_lines text = ""%string
     ∨ Forall clean_line (Py.split Py.NL (clean_lines text))).
Proof.
  split; [apply clean_lines_idempotent|].
  destruct (clean_lines_lines text) as [Hempty|Hlines]; [by left|].
  right. rewrite Hlines. apply kept_lines_clean.
Qed.

(** A returned text is bounded: with [max_content_length >= 0], whatever the
    document and the library do, a text that [_extract_content] returns is at
    most [max_content_length] plus the 24 characters of the marker long; when
    it is longer than [max_content_length] it is exactly that long and ends
    with the marker, and when it is not it is a cleaned text, untouched. *)
Theorem extracted_text_is_bounded `{lib : Bs4} (self : DocumentationScraper)
    (html : string) (rules : list (string * string)) (text : string) :
  _extract_content self html rules = inr text →
  0 <= max_content_length self →
  Py.len text <= max_content_length self + 24
  ∧ (Py.len text > max_content_length self →
       Py.len text = max_content_length self + 24
       ∧ ∃ head, text = (head ++ TRUNCATION_MARKER)%string)
  ∧ (Py.len text <= max_content_length self → clean_lines text = text).
Proof.
  intros Hres Hmax. apply extract_inr in Hres as [raw ->].
  unfold truncate.
  destruct (Z.gtb_spec (Py.len (clean_lines raw)) (max_content_length self))
    as [Hlong|Hfits].
  - rewrite slice_to_nonneg by done.
    assert (Hlen : Py.len (substring 0 (Z.to_nat (max_content_length self))
                             (clean_lines raw) ++ TRUNCATION_MARKER)%string
                   = max_content_length self + 24).
    { unfold Py.len in *. rewrite length_app_string, length_first_chars by lia.
      change (String.length TRUNCATION_MARKER) with 24%nat. lia. }
    rewrite Hlen. split_and!; [lia | |lia].
    intros _. split; [done|]. by eexists.
  - split_and!; [lia | lia |].
    intros _. apply clean_lines_idempotent.
Qed.

Lemma bounded_hello_example :
  Py.len ("hel" ++ TRUNCATION_MARKER)%string <= 3 + 24
  ∧ (Py.len ("hel" ++ TRUNCATION_MARKER)%string > 3 →
       Py.len ("hel" ++ TRUNCATION_MARKER)%string = 3 + 24
       ∧ ∃ head, ("hel" ++ TRUNCATION_MARKER)%string
                 = (head ++ TRUNCATION_MARKER)%string)
  ∧ (Py.len ("hel" ++ TRUNCATION_MARKER)%string <= 3 →
       clean_lines ("hel" ++ TRUNCATION_MARKER)%string
       = ("hel" ++ TRUNCATION_MARKER)%string).
Proof.
  apply (@extracted_text_is_bounded stub_bs4 (mkScraper 30 3)
           "  hello  world " [("main", "main")]).
  - reflexivity.
  - vm_compute. discriminate.
Defined.

(** A selector the library rejects ends the fallback chain: when the rules
    before it find nothing and [select_one] raises on it, the extraction
    raises [ParsingError] with that error's text, whatever the rules after it
    would have matched. *)
Theorem selector_error_stops_chain `{lib : Bs4} (self : DocumentationScraper)
    (html : string) (soup : Soup) (pre post : list (string * string))
    (name selector : string) (e : exn) :
  BeautifulSoup html = inr soup →
  Forall (no_match soup) pre →
  select_one soup selector = inl e →
  select_loop soup (pre ++ (name, selector) :: post)
  = (pre ++ [(name, selector)], inl e)
  ∧ _extract_content self html (pre ++ (name, selector) :: post)
    = inl (Exn ParsingError
             ("Failed to parse HTML content: " ++ exn_str e)%string).
Proof.
  intros Hparse Hpre Hsel.
  assert (Hloop : select_loop soup (pre ++ (name, selector) :: post)
                  = (pre ++ [(name, selector)], inl e)).
  { induction Hpre as [|[n s] pre Hn _ IH]; cbn.
    - by rewrite Hsel.
    - unfold no_match in Hn. cbn in Hn. by rewrite Hn, IH. }
  split; [done|].
  unfold _extract_content, extract_body. rewrite Hparse. cbn [bind].
  by rewrite Hloop.
Qed.

Lemma broken_selector_example :
  @select_loop stub_bs4 "Hello"
    ([("content", ".content")] ++ ("broken", "!") :: [("main", "main")])
  = ([("content", ".content")] ++ [("broken", "!")],
     inl (Exn (LibraryError "SelectorSyntaxError") "Invalid character"))
  ∧ @_extract_content stub_bs4 (mkScraper 30 1000) "Hello"
      ([("content", ".content")] ++ ("broken", "!") :: [("main", "main")])
    = inl (Exn ParsingError
             "Failed to parse HTML content: Invalid character").
Proof.
  apply (@selector_error_stops_chain stub_bs4 (mkScraper 30 1000) "Hello"
           "Hello" [("content", ".content")] [("main", "main")] "broken" "!"
           (Exn (LibraryError "SelectorSyntaxError") "Invalid character")).
  - reflexivity.
  - repeat constructor.
  - reflexivity.
Defined.

End ScraperExtra.

(** * The tools of server.py *)

Module ServerMore.

Import Cache CacheFacts CacheSet CacheMore Scraper Fetch Server.

Lemma get_hit {Data} (cache : CacheManager Data) key entry now :
  _cache cache !! key = Some entry → now < expires_at entry →
  get cache key now = (Some (data entry), cache).
Proof.
  intros Hk Hlive. unfold get. rewrite Hk.
  assert (He : is_expired now entry = false) by by apply is_expired_false.
  by rewrite He.
Qed.

(** [get] only ever removes. *)
Lemma get_lookup_after {Data} (cache : CacheManager Data) key now k e :
  _cache (get cache key now).2 !! k = Some e → _cache cache !! k = Some e.
Proof.
  unfold get. destruct (_cache cache !! key) as [entry|] eqn:Hk; [|done].
  destruct (is_expired now entry); [|done]. cbn [snd _cache with_cache].
  intros Hl. apply lookup_delete_Some in Hl. tauto.
Qed.

Lemma after_set_lookup_inv {Data} (cache : CacheManager Data) key d ttl
    now now_cleanup k e :
  _cache (after_set cache key d ttl now now_cleanup) !! k = Some e →
  (k = key ∧ data e = d) ∨ (k ≠ key ∧ _cache cache !! k = Some e).
Proof.
  rewrite after_set_cache. cbv zeta. intros Hl.
  assert (Hins : <[key := mkCacheEntry d (expiry cache ttl now)]>
                   (_cache cache) !! k = Some e).
  { destruct (Z.of_nat (size _) mod 10 =? 0); [|done].
    by apply map_lookup_filter_Some in Hl as [? _]. }
  destruct (decide (k = key)) as [->|Hne].
  - rewrite lookup_insert_eq in Hins. left. split; [done|]. by inversion Hins.
  - rewrite lookup_insert_ne in Hins by done. by right.
Qed.

Section Aside.

Variable overflow_str : Z → Z → string.

(** The shared body on a hit. *)
Lemma cache_aside_hit (cache : CacheManager string) (key : string)
    (entry : CacheEntry string) (fetched : result string)
    (m1 m2 m3 : string) (t1 t2 t3 : Z) :
  _cache cache !! key = Some entry →
  t1 < expires_at entry →
  data entry ≠ ""%string →
  cache_aside overflow_str cache key true fetched m1 m2 m3 t1 t2 t3
  = (data entry, cache).
Proof.
  intros Hk Hlive Hne. unfold cache_aside.
  rewrite (get_hit cache key entry t1) by done.
  by destruct (data entry).
Qed.

(** A call that stores what it fetched, and the next call on the same key. *)
Lemma cache_aside_round_trip (cache : CacheManager string)
    (key content : string) (use_cache : bool) (m1 m2 m3 : string)
    (t1 t2 t3 : Z) :
  use_cache = false ∨ _cache cache !! key = None →
  content ≠ ""%string →
  datetime_in_range t2 = true →
  datetime_in_range (t2 + default_ttl cache * US_PER_SECOND) = true →
  t3 < t2 + default_ttl cache * US_PER_SECOND →
  let cache1 := after_set cache key content None t2 t3 in
  cache_aside overflow_str cache key use_cache (inr content) m1 m2 m3
    t1 t2 t3
  = (content, cache1)
  ∧ ∀ fetched m1' m2' m3' t4 t5 t6,
      t4 < t2 + default_ttl cache * US_PER_SECOND →
      cache_aside overflow_str cache1 key true fetched m1' m2' m3' t4 t5 t6
      = (content, cache1).
Proof.
  intros Hmiss Hne Hnow Hexp Hsweep cache1. split.
  - unfold cache_aside.
    assert (Hlook : (if use_cache then get cache key t1 else (None, cache))
                    = (None, cache)).
    { destruct Hmiss as [->|Hnone]; [done|].
      destruct use_cache; [|done]. unfold get. by rewrite Hnone. }
    rewrite Hlook. by rewrite set_in_range.
  - intros fetched m1' m2' m3' t4 t5 t6 Hlive. unfold cache_aside.
    assert (Hl : _cache cache1 !! key
                 = Some (mkCacheEntry content
                           (t2 + default_ttl cache * US_PER_SECOND))).
    { unfold cache1. rewrite after_set_lookup.
      unfold expiry, ttl_seconds.
      assert (Hs : is_expired t3
                     (mkCacheEntry content
                        (t2 + default_ttl cache * US_PER_SECOND)) = false)
        by (by apply is_expired_false).
      by rewrite Hs, andb_false_r. }
    rewrite (get_hit cache1 key _ t4 Hl) by done. cbn [data].
    destruct content; [done|]. done.
Qed.

End Aside.

End ServerMore.

Module ServerExtra.

Import Cache CacheFacts CacheSet CacheMore Scraper Fetch Server ServerMore Words.

(** A live, non-empty cached text is served as it is by a call that checks
    the cache: [get_paper_docs], [get_leaf_docs] and [get_purpur_docs] called
    with [force_refresh] false, and [search_minecraft_wiki], return the text
    cached under their key, leave the cache untouched and do not depend on
    what fetching would give or raise. *)
Theorem cached_text_is_served `{lib : Bs4}
    (_fetch_url : string → result string) (scraper : DocumentationScraper)
    (overflow_str : Z → Z → string) (cache : CacheManager string)
    (entry : CacheEntry string) (t1 t2 t3 : Z) :
  t1 < expires_at entry →
  data entry ≠ ""%string →
  (∀ section,
     _cache cache !! ("paper:" ++ PyMore.or_default section "index")%string
     = Some entry →
     get_paper_docs _fetch_url scraper overflow_str cache section false
       t1 t2 t3
     = (data entry, cache))
  ∧ (∀ section,
       _cache cache !! ("leaf:" ++ PyMore.or_default section "index")%string
       = Some entry →
       get_leaf_docs _fetch_url scraper overflow_str cache section false
         t1 t2 t3
       = (data entry, cache))
  ∧ (∀ section,
       _cache cache !! ("purpur:" ++ PyMore.or_default section "index")%string
       = Some entry →
       get_purpur_docs _fetch_url scraper overflow_str cache section false
         t1 t2 t3
       = (data entry, cache))
  ∧ (∀ query,
       _cache cache !! ("wiki:" ++ PyMore.lower query)%string = Some entry →
       Server.search_minecraft_wiki _fetch_url scraper overflow_str cache
         query t1 t2 t3
       = (data entry, cache)).
Proof.
  intros Hlive Hne. split_and!.
  - intros section Hk. unfold get_paper_docs. cbn [negb].
    by apply cache_aside_hit.
  - intros section Hk. unfold get_leaf_docs. cbn [negb].
    by apply cache_aside_hit.
  - intros section Hk. unfold get_purpur_docs. cbn [negb].
    by apply cache_aside_hit.
  - intros query Hk. unfold Server.search_minecraft_wiki.
    by apply cache_aside_hit.
Qed.

(** The Paper index served from the cache while the network is down. *)
Lemma live_hit_example :
  @get_paper_docs stub_bs4 down_fetch (mkScraper 30 1000) stub_overflow_str
    paper_cache None false (T0 + 1) (T0 + 1) (T0 + 1)
  = ("Paper docs"%string, paper_cache)
  ∧ @get_paper_docs stub_bs4 down_fetch (mkScraper 30 1000) stub_overflow_str
      paper_cache None true (T0 + 1) (T0 + 1) (T0 + 1)
    = ("Error: Network error fetching Paper documentation: Network error: unreachable"%string,
       paper_cache).
Proof.
  split; [|reflexivity].
  destruct (@cached_text_is_served stub_bs4 down_fetch (mkScraper 30 1000)
              stub_overflow_str paper_cache
              (mkCacheEntry "Paper docs"%string (T0 + 2))
              (T0 + 1) (T0 + 1) (T0 + 1)) as (Hpaper & _).
  - vm_compute. reflexivity.
  - discriminate.
  - apply (Hpaper None). vm_compute. reflexivity.
Defined.

(** An empty cached text is never served: a live entry holding the empty
    string (what an extraction returns for an empty element) does not count
    as a hit, and the tool goes on exactly as it does with
    [force_refresh]. *)
Theorem empty_cached_text_is_refetched (overflow_str : Z → Z → string)
    (cache : CacheManager string) (key : string) (entry : CacheEntry string)
    (fetched : result string) (m1 m2 m3 : string) (t1 t2 t3 : Z) :
  _cache cache !! key = Some entry →
  t1 < expires_at entry →
  data entry = ""%string →
  cache_aside overflow_str cache key true fetched m1 m2 m3 t1 t2 t3
  = cache_aside overflow_str cache key false fetched m1 m2 m3 t1 t2 t3.
Proof.
  intros Hk Hlive Hempty. unfold cache_aside.
  rewrite (get_hit cache key entry t1) by done. by rewrite Hempty.
Qed.

(** The tools never cache an error message and never touch another key's
    text: every entry in the cache after a call was there before, unchanged,
    or sits under the call's key and holds the text that was fetched and
    returned. *)
Theorem tools_never_cache_errors (overflow_str : Z → Z → string)
    (cache : CacheManager string) (key : string) (use_cache : bool)
    (fetched : result string) (m1 m2 m3 : string) (t1 t2 t3 : Z) :
  let '(reply, cache') :=
    cache_aside overflow_str cache key use_cache fetched m1 m2 m3 t1 t2 t3 in
  ∀ k e, _cache cache' !! k = Some e →
         _cache cache !! k = Some e
         ∨ (k = key ∧ fetched = inr (data e) ∧ reply = data e).
Proof.
  unfold cache_aside.
  set (looked := if use_cache then get cache key t1 else (None, cache)).
  assert (Hsub : ∀ k e, _cache looked.2 !! k = Some e →
                        _cache cache !! k = Some e).
  { intros k e. unfold looked. destruct use_cache; [|done].
    apply get_lookup_after. }
  destruct looked as [cached cache1]. cbn [snd] in Hsub.
  assert (Hfresh :
    let '(reply, cache') :=
      match fetched with
      | inr content =>
          match set cache1 key content None t2 t3 with
          | inr cache2 => (content, cache2)
          | inl OverflowError =>
              (error_reply m3 (overflow_str (default_ttl cache1) t2), cache1)
          end
      | inl e =>
          match exn_kind e with
          | NetworkError => (error_reply m1 (exn_str e), cache1)
          | ParsingError => (error_reply m2 (exn_str e), cache1)
          | _ => (error_reply m3 (exn_str e), cache1)
          end
      end in
    ∀ k e, _cache cache' !! k = Some e →
           _cache cache !! k = Some e
           ∨ (k = key ∧ fetched = inr (data e) ∧ reply = data e)).
  { destruct fetched as [e|content].
    - destruct (exn_kind e); intros k e' Hl; left; by apply Hsub.
    - destruct (set cache1 key content None t2 t3) as [[]|cache2] eqn:Hset.
      + intros k e' Hl. left. by apply Hsub.
      + apply set_inr in Hset as [_ ->]. intros k e' Hl.
        apply after_set_lookup_inv in Hl as [[-> <-]|[_ Hl]].
        * by right.
        * left. by apply Hsub. }
  destruct cached as [text|]; [|exact Hfresh].
  destruct (Py.truthy text); [|exact Hfresh].
  intros k e Hl. left. by apply Hsub.
Qed.

Lemma empty_cached_text_example :
  cache_aside stub_overflow_str
    (mkCacheManager 3600 {[ "paper:index" := mkCacheEntry ""%string (T0 + 2) ]})
    "paper:index" true (inr "fresh"%string) "n: " "p: " "o: "
    (T0 + 1) (T0 + 1) (T0 + 1)
  = cache_aside stub_overflow_str
      (mkCacheManager 3600
         {[ "paper:index" := mkCacheEntry ""%string (T0 + 2) ]})
      "paper:index" false (inr "fresh"%string) "n: " "p: " "o: "
      (T0 + 1) (T0 + 1) (T0 + 1).
Proof.
  apply (empty_cached_text_is_refetched stub_overflow_str _ "paper:index"
           (mkCacheEntry ""%string (T0 + 2))).
  - vm_compute. reflexivity.
  - vm_compute. reflexivity.
  - reflexivity.
Defined.

(** The Paper tool keys its cache by [section or 'index']: a call without a
    section, with an empty one and with the section [index] share one entry.
    Once a call has fetched and stored a non-empty page for a section, a
    call within the TTL for any section with the same key returns that page
    without fetching, although the page of its own section is at another
    address. *)
Theorem paper_sections_share_entries `{lib : Bs4}
    (_fetch_url : string → result string) (scraper : DocumentationScraper)
    (overflow_str : Z → Z → string) (cache : CacheManager string)
    (section section' : option string) (content : string)
    (t1 t2 t3 t4 t5 t6 : Z) :
  PyMore.or_default section "index" = PyMore.or_default section' "index" →
  fetch_paper_docs _fetch_url scraper section = inr content →
  content ≠ ""%string →
  datetime_in_range t2 = true →
  datetime_in_range (t2 + default_ttl cache * US_PER_SECOND) = true →
  t3 < t2 + default_ttl cache * US_PER_SECOND →
  t4 < t2 + default_ttl cache * US_PER_SECOND →
  ∃ cache1,
    get_paper_docs _fetch_url scraper overflow_str cache section true t1 t2 t3
    = (content, cache1)
    ∧ get_paper_docs _fetch_url scraper overflow_str cache1 section' false
        t4 t5 t6
      = (content, cache1).
Proof.
  intros Hkey Hfetch Hne Hnow Hexp Hsweep Hlive.
  exists (after_set cache ("paper:" ++ PyMore.or_default section "index")%string
            content None t2 t3).
  unfold get_paper_docs. rewrite <- Hkey, Hfetch. cbn [negb].
  destruct (cache_aside_round_trip overflow_str cache
              ("paper:" ++ PyMore.or_default section "index")%string content
              false "Network error fetching Paper documentation: "
              "Failed to parse Paper documentation: "
              "Unexpected error fetching Paper documentation: " t1 t2 t3
              (or_introl eq_refl) Hne Hnow Hexp Hsweep) as [Hfirst Hnext].
  split; [apply Hfirst|]. by apply Hnext.
Qed.

Lemma paper_sections_example :
  ∃ cache1,
    @get_paper_docs stub_bs4 echo_fetch (mkScraper 30 1000) stub_overflow_str
      (init string 3600) (Some "index"%string) true T0 T0 T0
    = ("https://docs.papermc.io/paper/index"%string, cache1)
    ∧ @get_paper_docs stub_bs4 echo_fetch (mkScraper 30 1000) stub_overflow_str
        cache1 None false (T0 + 1) (T0 + 1) (T0 + 1)
      = ("https://docs.papermc.io/paper/index"%string, cache1).
Proof.
  apply (@paper_sections_share_entries stub_bs4 echo_fetch (mkScraper 30 1000)
           stub_overflow_str (init string 3600) (Some "index"%string) None
           "https://docs.papermc.io/paper/index" T0 T0 T0 (T0 + 1) (T0 + 1)
           (T0 + 1));
    first [reflexivity | discriminate | vm_compute; reflexivity].
Defined.

(** The wiki tool keys its cache by the lower-cased query but fetches the
    query as written: once a query that was not cached has been fetched and
    stored with a non-empty article, a query that differs only in case
    returns that article within the TTL without fetching. *)
Theorem wiki_entries_ignore_case `{lib : Bs4}
    (_fetch_url : string → result string) (scraper : DocumentationScraper)
    (overflow_str : Z → Z → string) (cache : CacheManager string)
    (query query' content : string) (t1 t2 t3 t4 t5 t6 : Z) :
  PyMore.lower query = PyMore.lower query' →
  _cache cache !! ("wiki:" ++ PyMore.lower query)%string = None →
  Fetch.search_minecraft_wiki _fetch_url scraper query = inr content →
  content ≠ ""%string →
  datetime_in_range t2 = true →
  datetime_in_range (t2 + default_ttl cache * US_PER_SECOND) = true →
  t3 < t2 + default_ttl cache * US_PER_SECOND →
  t4 < t2 + default_ttl cache * US_PER_SECOND →
  ∃ cache1,
    Server.search_minecraft_wiki _fetch_url scraper overflow_str cache query
      t1 t2 t3
    = (content, cache1)
    ∧ Server.search_minecraft_wiki _fetch_url scraper overflow_str cache1
        query' t4 t5 t6
      = (content, cache1).
Proof.
  intros Hkey Hmiss Hfetch Hne Hnow Hexp Hsweep Hlive.
  exists (after_set cache ("wiki:" ++ PyMore.lower query)%string
            content None t2 t3).
  unfold Server.search_minecraft_wiki. rewrite <- Hkey, Hfetch.
  destruct (cache_aside_round_trip overflow_str cache
              ("wiki:" ++ PyMore.lower query)%string content
              true "Network error searching Minecraft Wiki: "
              "Failed to parse Minecraft Wiki article: "
              "Unexpected error searching Minecraft Wiki: " t1 t2 t3
              (or_intror Hmiss) Hne Hnow Hexp Hsweep) as [Hfirst Hnext].
  split; [apply Hfirst|]. by apply Hnext.
Qed.

Lemma wiki_case_example :
  ∃ cache1,
    @Server.search_minecraft_wiki stub_bs4 echo_fetch (mkScraper 30 1000)
      stub_overflow_str (init string 3600) "Ender Dragon" T0 T0 T0
    = ("https://minecraft.wiki/w/Ender_Dragon"%string, cache1)
    ∧ @Server.search_minecraft_wiki stub_bs4 echo_fetch (mkScraper 30 1000)
        stub_overflow_str cache1 "ender dragon" (T0 + 1) (T0 + 1) (T0 + 1)
      = ("https://minecraft.wiki/w/Ender_Dragon"%string, cache1).
Proof.
  apply (@wiki_entries_ignore_case stub_bs4 echo_fetch (mkScraper 30 1000)
           stub_overflow_str (init string 3600) "Ender Dragon" "ender dragon"
           "https://minecraft.wiki/w/Ender_Dragon" T0 T0 T0 (T0 + 1) (T0 + 1)
           (T0 + 1));
    first [reflexivity | discriminate | vm_compute; reflexivity].
Defined.

(** A page without any of the expected regions is answered with the parsing
    error spelled out, and nothing is cached: when the page of the section
    parses but none of the four selectors of [fetch_paper_docs] finds an
    element, the forced Paper tool returns the message below, naming the four
    rule names, and leaves the cache as it was. *)
Theorem paper_without_content_reply `{lib : Bs4}
    (_fetch_url : string → result string) (scraper : DocumentationScraper)
    (overflow_str : Z → Z → string) (cache : CacheManager string)
    (section : option string) (html : string) (soup : Soup) (t1 t2 t3 : Z) :
  _fetch_url (section_url "https://docs.papermc.io/paper" section)
  = inr html →
  BeautifulSoup html = inr soup →
  Forall (no_match soup) PAPER_SELECTORS →
  get_paper_docs _fetch_url scraper overflow_str cache section true t1 t2 t3
  = (("Error: Failed to parse Paper documentation: "
      ++ "Failed to parse HTML content: "
      ++ "Could not find content using selectors: "
      ++ "['main_content', 'article', 'content', 'docs']")%string,
     cache).
Proof.
  intros Hfetch Hparse Hnone.
  unfold get_paper_docs, fetch_paper_docs. rewrite Hfetch. cbn [bind negb].
  unfold _extract_content, extract_body. rewrite Hparse. cbn [bind].
  rewrite ScraperFacts.select_loop_no_match by done. reflexivity.
Qed.

Lemma paper_without_content_example :
  @get_paper_docs bare_bs4 echo_fetch (mkScraper 30 1000) stub_overflow_str
    two_entries (Some "admin"%string) true T0 T0 T0
  = (("Error: Failed to parse Paper documentation: "
      ++ "Failed to parse HTML content: "
      ++ "Could not find content using selectors: "
      ++ "['main_content', 'article', 'content', 'docs']")%string,
     two_entries).
Proof.
  apply (@paper_without_content_reply bare_bs4 echo_fetch (mkScraper 30 1000)
           stub_overflow_str two_entries (Some "admin"%string)
           "https://docs.papermc.io/paper/admin"
           "https://docs.papermc.io/paper/admin").
  - reflexivity.
  - reflexivity.
  - repeat constructor.
Defined.

End ServerExtra.

(** * The Mojang client *)

Module MojangMore.

Import Scraper ScraperFacts PyMore ScraperMore Mojang.

Lemma alnum_not_space c : isalnum_char c = true → Py.isspace c = false.
Proof.
  destruct c as [b0 b1 b2 b3 b4 b5 b6 b7].
  destruct b0, b1, b2, b3, b4, b5, b6, b7; vm_compute;
    intros H; first [reflexivity | discriminate H].
Qed.

Lemma replace_cons old new c s :
  replace old new (String c s)
  = if Ascii.eqb c old then (new ++ replace old new s)%string
    else String c (replace old new s).
Proof. reflexivity. Qed.

(** Removing the underscores and asking [isalnum]. *)
Lemma isalnum_without_underscores s :
  isalnum (replace "_" "" s)
  = all_chars (fun c => isalnum_char c || Ascii.eqb c "_") s
    && negb (all_chars (fun c => Ascii.eqb c "_") s).
Proof.
  unfold isalnum.
  assert (Hall : all_chars isalnum_char (replace "_" "" s)
                 = all_chars (fun c => isalnum_char c || Ascii.eqb c "_") s).
  { induction s as [|c s IH]; [done|]. rewrite replace_cons.
    cbn [all_chars]. destruct (Ascii.eqb_spec c "_") as [->|Hne].
    - rewrite app_string_nil, IH. done.
    - cbn [all_chars]. rewrite IH. by rewrite orb_false_r. }
  assert (Htruthy : all_chars (fun c => isalnum_char c || Ascii.eqb c "_") s
                    = true →
                    Py.truthy (replace "_" "" s)
                    = negb (all_chars (fun c => Ascii.eqb c "_") s)).
  { induction s as [|c s IH]; [done|]. rewrite replace_cons.
    cbn [all_chars]. intros [Hc Hs]%andb_true_iff.
    destruct (Ascii.eqb_spec c "_") as [->|Hne].
    - rewrite app_string_nil. cbn [andb]. by apply IH.
    - done. }
  rewrite Hall.
  destruct (all_chars (fun c => isalnum_char c || Ascii.eqb c "_") s) eqn:Ha.
  - rewrite Htruthy by done. by rewrite andb_true_r.
  - by rewrite andb_false_r.
Qed.

Lemma lstrip_nonempty s :
  all_chars Py.isspace s = false → Py.lstrip s ≠ ""%string.
Proof.
  induction s as [|c s IH]; [done|]. cbn [all_chars Py.lstrip].
  destruct (Py.isspace c); [|done]. cbn [andb]. exact IH.
Qed.

Lemma strip_nonempty s :
  all_chars Py.isspace s = false → Py.truthy (Py.strip s) = true.
Proof.
  intros Hs. unfold Py.strip.
  pose proof (lstrip_nonempty s Hs) as Hne.
  pose proof (lstrip_starts_clean s) as Hclean.
  destruct (Py.lstrip s) as [|c r]; [done|]. cbn [starts_clean] in Hclean.
  rewrite rstrip_cons. destruct (Py.rstrip r); [by rewrite Hclean|done].
Qed.

(** A name with an alphanumeric character is not blank. *)
Lemma named_not_blank s :
  all_chars (fun c => isalnum_char c || Ascii.eqb c "_") s = true →
  all_chars (fun c => Ascii.eqb c "_") s = false →
  all_chars Py.isspace s = false.
Proof.
  induction s as [|c s IH]; [done|]. cbn [all_chars].
  intros [Hc Hs]%andb_true_iff Hu.
  destruct (Ascii.eqb_spec c "_") as [->|Hne].
  - done.
  - rewrite orb_false_r in Hc. by rewrite (alnum_not_space c Hc).
Qed.

Lemma replace_absent old new s :
  no_char old s → replace old new s = s.
Proof.
  unfold no_char. induction s as [|c s IH]; [done|].
  rewrite contains_cons, replace_cons. intros [Hc Hs]%orb_false_iff.
  rewrite Ascii.eqb_sym, Hc. by rewrite IH.
Qed.

Lemma remove_char_gone old s : no_char old (replace old "" s).
Proof.
  unfold no_char. induction s as [|c s IH]; [done|]. rewrite replace_cons.
  destruct (Ascii.eqb c old) eqn:Hc.
  - by rewrite app_string_nil.
  - by rewrite contains_cons, Ascii.eqb_sym, Hc, IH.
Qed.

Lemma api_failure_kind self e :
  exn_kind (api_failure self e) = APIError
  ∨ exn_kind (api_failure self e) = NetworkError.
Proof.
  destruct e as [t|status t|t|t]; cbn; auto.
  destruct (status =? 429); auto.
Qed.

End MojangMore.

Module MojangExtra.

Import Scraper ScraperFacts PyMore ScraperMore Mojang MojangMore Words.

(** [get_player_uuid] sends a request exactly for the names of 3 to 16
    characters that are alphanumeric or underscores and not underscores only:
    for such a name the result is that of the guarded request for its
    address, and any other name (empty, blank, too short or long, with
    another character, or made of underscores) is refused with an [APIError]
    whatever the server would answer. *)
Theorem username_check_decides_request {Json}
    (client_get : string → option Z → raised + Response Json)
    (data_get_raises : Json → option string) (self : MojangAPIClient)
    (username : string) :
  (valid_username username = true →
     get_player_uuid client_get data_get_raises self username
     = guarded self
         (request client_get
            (BASE_URL ++ "/users/profiles/minecraft/" ++ username)%string
            data_get_raises))
  ∧ (valid_username username = false →
       ∃ text, ∀ client_get' : string → option Z → raised + Response Json,
         get_player_uuid client_get' data_get_raises self username
         = inl (Exn APIError text)).
Proof.
  unfold valid_username, get_player_uuid.
  rewrite isalnum_without_underscores.
  set (len_ok := ((3 <=? Py.len username) && (Py.len username <=? 16))%Z).
  set (chars_ok :=
         all_chars (fun c => isalnum_char c || Ascii.eqb c "_") username).
  set (underscores := all_chars (fun c => Ascii.eqb c "_") username).
  split.
  - intros [[Hlen Hchars]%andb_true_iff Hnot]%andb_true_iff.
    apply negb_true_iff in Hnot.
    assert (Htruthy : Py.truthy username = true).
    { destruct username; [|done]. by vm_compute in Hlen. }
    rewrite Htruthy, (strip_nonempty username)
      by (by apply named_not_blank).
    cbn [negb orb]. by rewrite Hchars, Hnot, Hlen.
  - intros Hbad.
    destruct (negb (Py.truthy username)
              || negb (Py.truthy (Py.strip username))); [by eexists|].
    destruct (negb (chars_ok && negb underscores) || negb len_ok) eqn:Hc;
      [by eexists|].
    exfalso. apply orb_false_iff in Hc as [H1 H2].
    apply negb_false_iff in H1, H2.
    apply andb_true_iff in H1 as [H1 H1'].
    by rewrite H2, H1, H1' in Hbad.
Qed.

Lemma jeb_and_underscores_example :
  get_player_uuid not_found_server (fun _ => None) (mkClient 30) "jeb_"
  = inr None
  ∧ ∃ text, ∀ client_get' : string → option Z → raised + Response string,
      get_player_uuid client_get' (fun _ => None) (mkClient 30) "___"
      = inl (Exn APIError text).
Proof.
  split.
  - rewrite (proj1 (username_check_decides_request not_found_server
                      (fun _ => None) (mkClient 30) "jeb_"));
      reflexivity.
  - apply (proj2 (username_check_decides_request not_found_server
                    (fun _ => None) (mkClient 30) "___")).
    reflexivity.
Defined.

(** [get_player_profile] ignores dashes: an id whose dashes removed leave 32
    hexadecimal digits gives the same request and so the same result as its
    dash-free form, wherever its dashes are; any other id is refused with an
    [APIError] naming it, whatever the server would answer. *)
Theorem uuid_dashes_are_ignored {Json}
    (client_get : string → option Z → raised + Response Json)
    (self : MojangAPIClient) (uuid : string) :
  (valid_clean_uuid (replace "-" "" uuid) = true →
     get_player_profile client_get self uuid
     = guarded self
         (request client_get
            (SESSION_URL ++ "/session/minecraft/profile/"
             ++ replace "-" "" uuid)%string (fun _ => None))
     ∧ get_player_profile client_get self uuid
       = get_player_profile client_get self (replace "-" "" uuid))
  ∧ (valid_clean_uuid (replace "-" "" uuid) = false →
       get_player_profile client_get self uuid
       = inl (Exn APIError ("Invalid UUID format: '" ++ uuid ++ "'")%string)).
Proof.
  unfold valid_clean_uuid, get_player_profile. cbv zeta.
  rewrite (replace_absent "-" "" (replace "-" "" uuid))
    by apply remove_char_gone.
  destruct (Py.len (replace "-" "" uuid) =? 32);
    destruct (all_chars _ (replace "-" "" uuid)); cbn [negb orb andb];
    split; try done.
Qed.

Lemma uuid_dashes_example :
  get_player_profile not_found_server (mkClient 30)
    "069a79f4-44e9-4726-a5be-fca90e38aaf5"
  = guarded (mkClient 30)
      (request not_found_server
         (SESSION_URL ++ "/session/minecraft/profile/"
          ++ "069a79f444e94726a5befca90e38aaf5")%string (fun _ => None))
  ∧ get_player_profile not_found_server (mkClient 30)
      "069a79f4-44e9-4726-a5be-fca90e38aaf5"
    = get_player_profile not_found_server (mkClient 30)
        "069a79f444e94726a5befca90e38aaf5".
Proof.
  apply (uuid_dashes_are_ignored not_found_server (mkClient 30)
           "069a79f4-44e9-4726-a5be-fca90e38aaf5").
  vm_compute. reflexivity.
Defined.

(** On a [str] argument, as their signatures declare, both lookups raise
    nothing but [APIError] and [NetworkError], as their docstrings say:
    whatever the name or id, whatever the client returns or raises and
    whatever the body decodes to, a failure of [get_player_uuid] or
    [get_player_profile] is of one of these two kinds.  On [None], which
    [server.py] passes as the id when the body of the first lookup has no
    [id], [get_player_uuid] still raises an [APIError], but
    [get_player_profile] raises the [AttributeError] of [None.replace],
    which is of neither kind. *)
Theorem lookups_raise_api_or_network_errors {Json}
    (client_get : string → option Z → raised + Response Json)
    (data_get_raises : Json → option string) (self : MojangAPIClient) :
  (∀ name e,
     get_player_uuid client_get data_get_raises self name = inl e
     ∨ get_player_profile client_get self name = inl e →
     exn_kind e = APIError ∨ exn_kind e = NetworkError)
  ∧ (∀ username e,
       get_player_uuid_arg client_get data_get_raises self username = inl e →
       exn_kind e = APIError ∨ exn_kind e = NetworkError)
  ∧ get_player_uuid_arg client_get data_get_raises self None
    = inl (Exn APIError "Username cannot be empty")
  ∧ (∀ id e,
       get_player_profile_arg client_get self (Some id) = inl e →
       exn_kind e = APIError ∨ exn_kind e = NetworkError)
  ∧ get_player_profile_arg client_get self None
    = inl (Exn (LibraryError "AttributeError")
             "'NoneType' object has no attribute 'replace'")
  ∧ (∀ e, get_player_profile_arg client_get self None = inl e →
          exn_kind e ≠ APIError ∧ exn_kind e ≠ NetworkError).
Proof.
  assert (Hguard : ∀ (body : raised + option Json) e,
            guarded self body = inl e →
            exn_kind e = APIError ∨ exn_kind e = NetworkError).
  { intros [r|r] e; cbn; [|done]. intros [= <-]. apply api_failure_kind. }
  assert (Huuid : ∀ name e,
            get_player_uuid client_get data_get_raises self name = inl e →
            exn_kind e = APIError ∨ exn_kind e = NetworkError).
  { intros name e H. unfold get_player_uuid in H.
    destruct (_ || _) in H; [inversion H; by left|].
    destruct (_ || _) in H; [inversion H; by left|].
    by apply Hguard in H. }
  assert (Hprofile : ∀ id e,
            get_player_profile client_get self id = inl e →
            exn_kind e = APIError ∨ exn_kind e = NetworkError).
  { intros id e H. unfold get_player_profile in H. cbv zeta in H.
    destruct (_ || _) in H; [inversion H; by left|].
    by apply Hguard in H. }
  split_and!.
  - intros name e [H|H]; [by apply (Huuid name) | by apply (Hprofile name)].
  - intros [name|] e H; cbn in H; [by apply (Huuid name)|].
    inversion H. by left.
  - reflexivity.
  - intros id e H. by apply (Hprofile id).
  - reflexivity.
  - intros e [= <-]. split; discriminate.
Qed.

Lemma rate_limit_example :
  get_player_uuid rate_limited_server (fun _ => None) (mkClient 30) "Notch"
  = inl (Exn APIError ("Unexpected error: " ++ RATE_LIMIT_TEXT)%string)
  ∧ (exn_kind (Exn APIError ("Unexpected error: " ++ RATE_LIMIT_TEXT)%string)
     = APIError
     ∨ exn_kind (Exn APIError ("Unexpected error: " ++ RATE_LIMIT_TEXT)%string)
       = NetworkError).
Proof.
  split; [reflexivity|].
  apply (proj1 (lookups_raise_api_or_network_errors rate_limited_server
                  (fun _ => None) (mkClient 30)) "Notch").
  left. reflexivity.
Defined.

(** [get_server_status] reports both services, in order, each as online,
    degraded or offline, whenever it returns; a timeout or a request error
    never makes it raise: it raises only what the client raised that is
    neither (and then not an [APIError] or [NetworkError] of its own). *)
Theorem server_status_reports_both_services {Json}
    (client_get : string → option Z → raised + Response Json)
    (self : MojangAPIClient) :
  match get_server_status client_get self with
  | inr result =>
      ∃ s1 s2, result = [("api.mojang.com"%string, s1);
                         ("sessionserver.mojang.com"%string, s2)]
               ∧ In s1 STATUSES ∧ In s2 STATUSES
  | inl e =>
      (∃ status text, e = HTTPStatusError status text)
      ∨ (∃ text, e = OtherException text)
  end.
Proof.
  unfold get_server_status, SERVICES. cbn [check_services].
  destruct (client_get (BASE_URL ++ "/")%string (Some 10))
    as [[t1|c1 t1|t1|t1]|r1];
    try (destruct (status_code r1 <? 500));
    destruct (client_get (SESSION_URL ++ "/")%string (Some 10))
      as [[t2|c2 t2|t2|t2]|r2];
    try (destruct (status_code r2 <? 500));
    cbn; first [by eauto | do 2 eexists; split; [reflexivity|]; cbn; tauto].
Qed.

End MojangExtra.
